(** * workout-api: the athlete and training-centre controllers

    A shallow embedding of
      - [workout_api/atleta/controller.py],
      - [workout_api/centro_treinamento/controller.py],
      - [workout_api/centro_treinamento/schemas.py],
    over an explicit model of the relational store and of the SQLAlchemy
    [AsyncSession] the handlers receive.

    Python objects whose class is declared outside these three files
    (the athlete schemas and the mapped rows) are kept as attribute
    dictionaries, which is how the controller itself handles them
    ([**model_dump()], [setattr]). *)

From stdpp Require Import gmap strings list fin_maps.
From Stdlib Require Import ZArith NArith Ascii String.

Set Warnings "-register-all".
Open Scope string_scope.

(** ** Python values *)

(** [uuid.UUID]: its 128-bit [int]. *)
Definition UUID : Type := N.

(** [datetime.datetime]: the wall clock in microseconds and the UTC offset
    of an aware value ([None] for a naive one). *)
Record datetime : Type := { wall : Z; tzinfo : option Z }.

Inductive Value : Type :=
  | VNone
  | VBool (b : bool)
  | VInt (z : Z)
  | VFloat (bits : N)
  | VStr (s : string)
  | VUuid (u : UUID)
  | VDatetime (d : datetime)
  | VDict (d : gmap string Value).

Abbreviation Dict := (gmap string Value).

(** *** [uuid.uuid4] and [str(UUID)] *)

(** [UUID(bytes=os.urandom(16), version=4)]: the variant and version bits
    are forced on sixteen random bytes. *)
Definition uuid_of_random (random : N) : UUID :=
  let int := N.land random (N.ones 128) in
  let int := N.ldiff int (N.shiftl 0xc000 48) in
  let int := N.lor int (N.shiftl 0x8000 48) in
  let int := N.ldiff int (N.shiftl 0xf000 64) in
  N.lor int (N.shiftl 4 76).

(** [UUID.variant == RFC_4122]. *)
Definition variant_rfc_4122 (u : UUID) : bool :=
  negb (N.land u (N.shiftl 0x8000 48) =? 0)%N
  && (N.land u (N.shiftl 0x4000 48) =? 0)%N.

(** [UUID.version]. *)
Definition version (u : UUID) : option N :=
  if variant_rfc_4122 u then Some (N.land (N.shiftr u 76) 0xf) else None.

(** pydantic's [UUID4]. *)
Definition is_uuid4 (u : UUID) : bool :=
  match version u with Some 4%N => true | _ => false end.

Definition hex_digit (n : N) : ascii :=
  match n with
  | 0 => "0" | 1 => "1" | 2 => "2" | 3 => "3" | 4 => "4" | 5 => "5"
  | 6 => "6" | 7 => "7" | 8 => "8" | 9 => "9" | 10 => "a" | 11 => "b"
  | 12 => "c" | 13 => "d" | 14 => "e" | _ => "f"
  end%N%char.

(** ['%0<width>x' % n], for [n] below [16 ^ width]. *)
Fixpoint hex_fixed (width : nat) (n : N) : string :=
  match width with
  | O => ""
  | S w => hex_fixed w (n / 16)%N ++ String (hex_digit (n mod 16)%N) ""
  end.

(** [str(u)], also what an f-string prints for [{id}]. *)
Definition uuid_str (u : UUID) : string :=
  let hex := hex_fixed 32 u in
  substring 0 8 hex ++ "-" ++ substring 8 4 hex ++ "-" ++
  substring 12 4 hex ++ "-" ++ substring 16 4 hex ++ "-" ++
  substring 20 12 hex.

(** *** [len] of a [str]

    Text is kept as its UTF-8 bytes; [len] counts code points, that is
    the bytes that are not continuation bytes [10xxxxxx]. *)
Definition is_continuation (c : ascii) : bool :=
  (N.land (N_of_ascii c) 0xC0 =? 0x80)%N.

Fixpoint py_len (s : string) : nat :=
  match s with
  | EmptyString => 0
  | String c s' => (if is_continuation c then 0 else 1) + py_len s'
  end.

(** [s] occurs in [t]. *)
Definition contains (s t : string) : Prop :=
  ∃ before after : string, t = before ++ s ++ after.

(** ** Exceptions and results *)

Inductive Exception : Type :=
  | HTTPException (status_code : nat) (detail : string)
  | TypeError
  | ValidationError
  | IntegrityError.

Inductive Outcome (A : Type) : Type :=
  | Return (a : A)
  | Raise (e : Exception).
Arguments Return {A} a.
Arguments Raise {A} e.

(** ** centro_treinamento/schemas.py *)

Record CentroTreinamentoIn : Type := {
  nome : string;
  endereco : string;
  proprietario : string
}.

Record CentroTreinamentoAtleta : Type := { atleta_centro_nome : string }.

(** [class CentroTreinamentoOut(CentroTreinamentoIn)]: the inherited fields
    and [id]. *)
Record CentroTreinamentoOut : Type := {
  out_id : UUID;
  out_nome : string;
  out_endereco : string;
  out_proprietario : string
}.

(** The [max_length] bounds of the three [Field]s. *)
Definition CentroTreinamentoIn_valid (c : CentroTreinamentoIn) : bool :=
  (py_len (nome c) <=? 20)%nat && (py_len (endereco c) <=? 60)%nat
  && (py_len (proprietario c) <=? 30)%nat.

Definition CentroTreinamentoAtleta_valid (c : CentroTreinamentoAtleta) : bool :=
  (py_len (atleta_centro_nome c) <=? 20)%nat.

(** [centro_treinamento_in.model_dump()]. *)
Definition centro_model_dump (c : CentroTreinamentoIn) : string * string * string :=
  (nome c, endereco c, proprietario c).

(** [CentroTreinamentoOut(id=..., **fields)]: pydantic validates the new
    object against the inherited bounds and against [UUID4]. *)
Definition CentroTreinamentoOut_init (id : UUID) (fields : string * string * string)
  : Outcome CentroTreinamentoOut :=
  let '(n, e, p) := fields in
  if is_uuid4 id
     && CentroTreinamentoIn_valid {| nome := n; endereco := e; proprietario := p |}
  then Return {| out_id := id; out_nome := n; out_endereco := e; out_proprietario := p |}
  else Raise ValidationError.

(** ** The athlete and category schemas

    [atleta/schemas.py] and [categorias/schemas.py] are read by the
    controller only through [.categoria.nome], [.centro_treinamento.nome]
    and [model_dump]; the athlete's own fields are a dictionary. *)

Record CategoriaIn : Type := { categoria_in_nome : string }.

Record AtletaIn : Type := {
  campos : Dict;
  categoria : CategoriaIn;
  centro_treinamento : CentroTreinamentoAtleta
}.

(** [atleta_in.model_dump()]: nested schemas are dumped as dictionaries. *)
Definition AtletaIn_model_dump (a : AtletaIn) : Dict :=
  <["centro_treinamento" :=
      VDict {["nome" := VStr (atleta_centro_nome (centro_treinamento a))]}]>
  (<["categoria" := VDict {["nome" := VStr (categoria_in_nome (categoria a))]}]>
   (campos a)).

(** [AtletaOut(id=..., create_at=..., **fields)]: Python refuses a keyword
    given twice before the class is even called. *)
Definition AtletaOut_init (id : UUID) (create_at : datetime) (fields : Dict)
  : Outcome Dict :=
  match fields !! "id", fields !! "create_at" with
  | None, None =>
      Return (<["id" := VUuid id]> (<["create_at" := VDatetime create_at]> fields))
  | _, _ => Raise TypeError
  end.

(** [atleta_out.model_dump(exclude={"categoria", "centro_treinamento"})]. *)
Definition AtletaOut_model_dump_exclude (out : Dict) : Dict :=
  delete "categoria" (delete "centro_treinamento" out).

(** ** Mapped rows *)

Record CategoriaModel : Type := {
  categoria_pk_id : option Z;
  categoria_id : UUID;
  categoria_nome : string
}.

Record CentroTreinamentoModel : Type := {
  centro_pk_id : option Z;
  centro_id : UUID;
  centro_nome : string;
  centro_endereco : string;
  centro_proprietario : string
}.

(** [CentroTreinamentoModel] built from [centro_treinamento_out.model_dump()]:
    a transient object, its primary key still unset. *)
Definition CentroTreinamentoModel_init (out : CentroTreinamentoOut)
  : CentroTreinamentoModel :=
  {| centro_pk_id := None; centro_id := out_id out; centro_nome := out_nome out;
     centro_endereco := out_endereco out;
     centro_proprietario := out_proprietario out |}.

(** [categoria.pk_id] as the value assigned to a foreign-key attribute. *)
Definition pk_value (pk : option Z) : Value :=
  match pk with Some p => VInt p | None => VNone end.

(** ** The relational store *)

Record Store : Type := {
  categorias : list CategoriaModel;
  centros_treinamento : list CentroTreinamentoModel;
  atletas : list Dict
}.

Definition empty_store : Store :=
  {| categorias := []; centros_treinamento := []; atletas := [] |}.

(** What a session can [add]. *)
Inductive Entity : Type :=
  | ECategoria (c : CategoriaModel)
  | ECentroTreinamento (c : CentroTreinamentoModel)
  | EAtleta (a : Dict).

(** The integer primary key the store gives a row inserted without one. *)
Definition next_pk (used : list (option Z)) : Z :=
  (1 + foldr Z.max 0 (omap (λ pk, pk) used))%Z.

(** Whether a primary key given with the row is one the table holds. *)
Definition pk_taken (pk : option Z) (used : list (option Z)) : bool :=
  match pk with
  | Some p => existsb (λ q, match q with Some q => (p =? q)%Z | None => false end) used
  | None => false
  end.

Section Persistence.

(** The mapped classes ([atleta/models.py] and its two neighbours) are not
    among the sources, so the integrity constraints their tables declare
    (uniqueness, nullability) are a parameter: whether the store accepts
    an [INSERT] of the entity. *)
Variable constraints : Store → Entity → bool.

(** One [INSERT]; [None] is a refused statement. *)
Definition insert_entity (s : Store) (e : Entity) : option Store :=
  if negb (constraints s e) then None else
  match e with
  | ECategoria c =>
      let used := categoria_pk_id <$> categorias s in
      if pk_taken (categoria_pk_id c) used then None else
      let pk := default (next_pk used) (categoria_pk_id c) in
      Some {| categorias := categorias s ++
                [{| categoria_pk_id := Some pk; categoria_id := categoria_id c;
                    categoria_nome := categoria_nome c |}];
              centros_treinamento := centros_treinamento s;
              atletas := atletas s |}
  | ECentroTreinamento c =>
      let used := centro_pk_id <$> centros_treinamento s in
      if pk_taken (centro_pk_id c) used then None else
      let pk := default (next_pk used) (centro_pk_id c) in
      Some {| categorias := categorias s;
              centros_treinamento := centros_treinamento s ++
                [{| centro_pk_id := Some pk; centro_id := centro_id c;
                    centro_nome := centro_nome c;
                    centro_endereco := centro_endereco c;
                    centro_proprietario := centro_proprietario c |}];
              atletas := atletas s |}
  | EAtleta a =>
      Some {| categorias := categorias s;
              centros_treinamento := centros_treinamento s;
              atletas := atletas s ++ [a] |}
  end.

Fixpoint insert_all (s : Store) (es : list Entity) : option Store :=
  match es with
  | [] => Some s
  | e :: es' =>
      match insert_entity s e with
      | Some s' => insert_all s' es'
      | None => None
      end
  end.

(** ** The session *)

(** A loaded athlete is referred to by the position of its row; the
    identity map holds the one object every reference to it shares. *)
Definition Ref : Type := nat.

Record Session : Type := {
  new : list Entity;
  identity_map : gmap nat Dict;
  deleted : gset nat
}.

Definition fresh_session : Session :=
  {| new := []; identity_map := ∅; deleted := ∅ |}.

Record World : Type := { db : Store; session : Session }.

(** The relationship attributes of a loaded athlete, reduced to what the
    output schema reads of the related row ([nome]). *)
Definition related_categoria (s : Store) (fk : option Value) : Value :=
  match fk with
  | Some (VInt p) =>
      match List.find (λ c, bool_decide (categoria_pk_id c = Some p)) (categorias s) with
      | Some c => VDict {["nome" := VStr (categoria_nome c)]}
      | None => VNone
      end
  | _ => VNone
  end.

Definition related_centro_treinamento (s : Store) (fk : option Value) : Value :=
  match fk with
  | Some (VInt p) =>
      match List.find (λ c, bool_decide (centro_pk_id c = Some p))
              (centros_treinamento s) with
      | Some c => VDict {["nome" := VStr (centro_nome c)]}
      | None => VNone
      end
  | _ => VNone
  end.

(** A row as the mapped object the session hands out. *)
Definition load (s : Store) (row : Dict) : Dict :=
  <["centro_treinamento" :=
      related_centro_treinamento s (row !! "centro_treinamento_id")]>
  (<["categoria" := related_categoria s (row !! "categoria_id")]> row).

(** The column attributes of a mapped object, as written back. *)
Definition columns (obj : Dict) : Dict :=
  delete "categoria" (delete "centro_treinamento" obj).

(** The unit of work: inserts, then updates of loaded objects, then
    deletes. A refused statement aborts the whole flush. *)
Definition flush (s : Store) (sess : Session) : option Store :=
  match insert_all s (new sess) with
  | None => None
  | Some s1 =>
      let updated :=
        imap (λ i row, default row (columns <$> identity_map sess !! i)) (atletas s1) in
      let kept :=
        List.map snd
          (List.filter (λ ir, bool_decide (ir.1 ∉ deleted sess))
             (imap (λ i row, (i, row)) updated)) in
      Some {| categorias := categorias s1;
              centros_treinamento := centros_treinamento s1;
              atletas := kept |}
  end.

(** ** Handlers: state and exceptions *)

Definition M (A : Type) : Type := World → Outcome A * World.

#[global] Instance M_ret : MRet M := λ A a w, (Return a, w).

#[global] Instance M_bind : MBind M := λ A B f m w,
  match m w with
  | (Return a, w') => f a w'
  | (Raise e, w') => (Raise e, w')
  end.

Definition raise {A : Type} (e : Exception) : M A := λ w, (Raise e, w).

Definition lift {A : Type} (o : Outcome A) : M A := λ w, (o, w).

(** [try: body / except Exception: handler]. *)
Definition try_except {A : Type} (body : M A) (handler : Exception → M A) : M A :=
  λ w, match body w with
       | (Return a, w') => (Return a, w')
       | (Raise e, w') => handler e w'
       end.

(** A call of an [async def] builds a coroutine object; its body runs
    when the object is awaited, and not at all when it is dropped. *)
Definition Coroutine (A : Type) : Type := M A.

Definition await {A : Type} (c : Coroutine A) : M A := c.

Definition not_awaited {A : Type} (c : Coroutine A) : M () := mret ().

(** *** [AsyncSession]

    Every handler awaits [db_session.execute(...)], so [db_session] is an
    asynchronous session: [execute], [commit], [delete] and [refresh] are
    coroutine functions, [add] is an ordinary method. *)

(** [(await db_session.execute(select(CategoriaModel).filter_by(...))).scalars()] *)
Definition execute_categorias (filter_by : CategoriaModel → bool)
  : Coroutine (list CategoriaModel) :=
  λ w, (Return (List.filter filter_by (categorias (db w))), w).

Definition execute_centros_treinamento (filter_by : CentroTreinamentoModel → bool)
  : Coroutine (list CentroTreinamentoModel) :=
  λ w, (Return (List.filter filter_by (centros_treinamento (db w))), w).

(** Selected athletes enter the identity map; one already there is handed
    out as it is. *)
Definition execute_atletas (filter_by : Dict → bool) : Coroutine (list Ref) :=
  λ w,
    let hits :=
      List.filter (λ ir : nat * Dict, filter_by ir.2)
        (imap (λ i row, (i, row)) (atletas (db w))) in
    let loaded :=
      foldr (λ (ir : nat * Dict) m,
               match m !! ir.1 with
               | Some _ => m
               | None => <[ir.1 := load (db w) ir.2]> m
               end)
            (identity_map (session w)) hits in
    (Return (List.map fst hits),
     {| db := db w;
        session := {| new := new (session w); identity_map := loaded;
                      deleted := deleted (session w) |} |}).

(** [.first()] *)
Definition first {A : Type} (rows : list A) : option A := head rows.

(** [db_session.add(obj)] (an ordinary method). *)
Definition add (e : Entity) : M () :=
  λ w, (Return (),
        {| db := db w;
           session := {| new := new (session w) ++ [e];
                         identity_map := identity_map (session w);
                         deleted := deleted (session w) |} |}).

(** [db_session.commit()], a coroutine: flush and commit, or roll back
    and raise. *)
Definition commit : Coroutine () :=
  λ w, match flush (db w) (session w) with
       | Some s' =>
           (Return (),
            {| db := s';
               session := {| new := []; identity_map := identity_map (session w);
                             deleted := ∅ |} |})
       | None => (Raise IntegrityError, {| db := db w; session := fresh_session |})
       end.

(** [db_session.delete(obj)], a coroutine. *)
Definition session_delete (obj : Ref) : Coroutine () :=
  λ w, (Return (),
        {| db := db w;
           session := {| new := new (session w);
                         identity_map := identity_map (session w);
                         deleted := {[obj]} ∪ deleted (session w) |} |}).

(** [db_session.refresh(obj)], a coroutine: reload the attributes. *)
Definition refresh (obj : Ref) : Coroutine () :=
  λ w, (Return (),
        {| db := db w;
           session :=
             {| new := new (session w);
                identity_map :=
                  match atletas (db w) !! obj with
                  | Some row => <[obj := load (db w) row]> (identity_map (session w))
                  | None => identity_map (session w)
                  end;
                deleted := deleted (session w) |} |}).

(** [setattr(obj, key, value)] on a loaded athlete. *)
Definition setattr (obj : Ref) (key : string) (value : Value) : M () :=
  λ w, (Return (),
        {| db := db w;
           session := {| new := new (session w);
                         identity_map :=
                           alter (λ attrs, <[key := value]> attrs) obj
                                 (identity_map (session w));
                         deleted := deleted (session w) |} |}).

(** [for key, value in items: body]. *)
Fixpoint for_items (items : list (string * Value)) (body : string → Value → M ())
  : M () :=
  match items with
  | [] => mret ()
  | (key, value) :: rest => body key value ;; for_items rest body
  end.

(** ** External inputs of one request *)

Record Env : Type := {
  urandom : N;      (* the sixteen bytes [uuid4] draws *)
  clock : Z         (* the UTC clock [datetime.now] reads *)
}.

Definition uuid4 (env : Env) : UUID := uuid_of_random (urandom env).

(** [datetime.now(timezone.utc)] *)
Definition datetime_now_utc (env : Env) : datetime :=
  {| wall := clock env; tzinfo := Some 0%Z |}.

(** [.replace(tzinfo=None)] *)
Definition replace_tzinfo_None (d : datetime) : datetime :=
  {| wall := wall d; tzinfo := None |}.

(** ** Serialisation of mapped objects *)

(** The attributes of a loaded athlete. *)
Definition attributes (obj : Ref) (w : World) : Dict :=
  default ∅ (identity_map (session w) !! obj).

(** [AtletaOut.model_validate(atleta)] from attributes, also what
    [response_model=AtletaOut] does to a returned row: the two
    relationships are read as nested schemas, the foreign-key columns
    are not part of the output. *)
Definition AtletaOut_model_validate (attrs : Dict) : Outcome Dict :=
  match attrs !! "categoria", attrs !! "centro_treinamento" with
  | Some (VDict _), Some (VDict _) =>
      Return (delete "categoria_id" (delete "centro_treinamento_id" attrs))
  | _, _ => Raise ValidationError
  end.

(** [response_model=CentroTreinamentoOut] on a returned row. *)
Definition CentroTreinamentoOut_model_validate (c : CentroTreinamentoModel)
  : Outcome CentroTreinamentoOut :=
  CentroTreinamentoOut_init (centro_id c)
    (centro_nome c, centro_endereco c, centro_proprietario c).

(** [fastapi_pagination.paginate] under [LimitOffsetPage]. *)
Record Page (A : Type) : Type := {
  items : list A;
  total : nat;
  page_limit : nat;
  page_offset : nat
}.
Arguments items {A} _.
Arguments total {A} _.

Definition paginate {A : Type} (limit offset : nat) (sequence : list A) : Page A :=
  {| items := take limit (drop offset sequence); total := List.length sequence;
     page_limit := limit; page_offset := offset |}.

Fixpoint validate_all {A B : Type} (validate : A → Outcome B) (l : list A)
  : Outcome (list B) :=
  match l with
  | [] => Return []
  | a :: l' =>
      match validate a with
      | Raise e => Raise e
      | Return b =>
          match validate_all validate l' with
          | Raise e => Raise e
          | Return bs => Return (b :: bs)
          end
      end
  end.

(** ** atleta/controller.py *)

Definition filter_by_id (id : UUID) (row : Dict) : bool :=
  match row !! "id" with
  | Some (VUuid u) => bool_decide (u = id)
  | _ => false
  end.

Definition atleta_not_found (id : UUID) : Exception :=
  HTTPException 404 ("Atleta não encontrado no id: " ++ uuid_str id ++ ".").

(** [post] *)
Definition atleta_post (env : Env) (atleta_in : AtletaIn) : M Dict :=
  let categoria_name := categoria_in_nome (categoria atleta_in) in
  let centro_treinamento_nome := atleta_centro_nome (centro_treinamento atleta_in) in
  found ← await (execute_categorias
                   (λ c, bool_decide (categoria_nome c = categoria_name)));
  match first found with
  | None =>
      raise (HTTPException 400
               ("A categoria '" ++ categoria_name ++ "' não foi encontrada."))
  | Some categoria =>
      found ← await (execute_centros_treinamento
                       (λ c, bool_decide (centro_nome c = centro_treinamento_nome)));
      match first found with
      | None =>
          raise (HTTPException 400
                   ("O centro de treinamento '" ++ centro_treinamento_nome
                    ++ "' não foi encontrado."))
      | Some centro_treinamento =>
          try_except
            (atleta_out ← lift (AtletaOut_init (uuid4 env)
                                  (replace_tzinfo_None (datetime_now_utc env))
                                  (AtletaIn_model_dump atleta_in));
             let atleta_model := AtletaOut_model_dump_exclude atleta_out in
             let atleta_model :=
               <["categoria_id" := pk_value (categoria_pk_id categoria)]> atleta_model in
             let atleta_model :=
               <["centro_treinamento_id" :=
                   pk_value (centro_pk_id centro_treinamento)]> atleta_model in
             add (EAtleta atleta_model) ;;
             await commit ;;
             mret atleta_out)
            (λ _, raise (HTTPException 500
                           "Ocorreu um erro ao inserir os dados no banco."))
      end
  end.

(** [[AtletaOut.model_validate(atleta) for atleta in atletas]] *)
Definition model_validate_each (atletas : list Ref) : M (list Dict) :=
  λ w, (validate_all (λ atleta, AtletaOut_model_validate (attributes atleta w))
                     atletas, w).

(** [get_all] *)
Definition atleta_get_all (limit offset : nat) : M (Page Dict) :=
  atletas ← await (execute_atletas (λ _, true));
  lista_atletas ← model_validate_each atletas;
  mret (paginate limit offset lista_atletas).

(** [get_by_id] (the [GET] route) *)
Definition atleta_get_by_id (id : UUID) : M Ref :=
  found ← await (execute_atletas (filter_by_id id));
  match first found with
  | None => raise (atleta_not_found id)
  | Some atleta => mret atleta
  end.

(** [patch]: neither [db_session.commit()] nor [db_session.refresh(atleta)]
    is awaited. [atleta_update] stands for what
    [atleta_update.model_dump(exclude_unset=True)] yields, the fields the
    payload sets; the keys of a dictionary are distinct, so the order in
    which the loop meets them does not show in the result. *)
Definition atleta_patch (id : UUID) (atleta_update : Dict) : M Ref :=
  found ← await (execute_atletas (filter_by_id id));
  match first found with
  | None => raise (atleta_not_found id)
  | Some atleta =>
      let atleta_up := atleta_update in
      for_items (map_to_list atleta_up) (λ key value, setattr atleta key value) ;;
      not_awaited commit ;;
      not_awaited (refresh atleta) ;;
      mret atleta
  end.

(** The handler of the [DELETE] route (the source names it [get_by_id]
    a second time): neither [db_session.delete(atleta)] nor
    [db_session.commit()] is awaited. *)
Definition atleta_delete (id : UUID) : M () :=
  found ← await (execute_atletas (filter_by_id id));
  match first found with
  | None => raise (atleta_not_found id)
  | Some atleta =>
      not_awaited (session_delete atleta) ;;
      not_awaited commit ;;
      mret ()
  end.

(** ** centro_treinamento/controller.py *)

(** [post] *)
Definition centro_treinamento_post (env : Env)
    (centro_treinamento_in : CentroTreinamentoIn) : M CentroTreinamentoOut :=
  centro_treinamento_out ←
    lift (CentroTreinamentoOut_init (uuid4 env)
            (centro_model_dump centro_treinamento_in));
  let centro_treinamento_model :=
    CentroTreinamentoModel_init centro_treinamento_out in
  add (ECentroTreinamento centro_treinamento_model) ;;
  await commit ;;
  mret centro_treinamento_out.

(** [get_all] *)
Definition centro_treinamento_get_all (limit offset : nat)
  : M (Page CentroTreinamentoModel) :=
  centros_treinamento ← await (execute_centros_treinamento (λ _, true));
  mret (paginate limit offset centros_treinamento).

(** [get_by_id] *)
Definition centro_treinamento_get_by_id (id : UUID) : M CentroTreinamentoModel :=
  found ← await (execute_centros_treinamento (λ c, bool_decide (centro_id c = id)));
  match first found with
  | None =>
      raise (HTTPException 404
               ("Centro de Treinamento não encontrado no id: " ++ uuid_str id ++ "."))
  | Some centro_treinamento => mret centro_treinamento
  end.

(** ** The category resource *)

Record CategoriaOut : Type := { categoria_out_id : UUID; categoria_out_nome : string }.

(** Modelled from the spec: [categorias/controller.py] is not among the
    sources. The spec has the category controller "symmetric to Training
    Center: Create, List, Get by id", its records being the [{id, name}]
    rows the athlete controller reads. Only creation is needed here, so
    that stores holding categories can be reached. *)
Definition categoria_post (env : Env) (categoria_in : CategoriaIn) : M CategoriaOut :=
  let categoria_out :=
    {| categoria_out_id := uuid4 env;
       categoria_out_nome := categoria_in_nome categoria_in |} in
  add (ECategoria {| categoria_pk_id := None;
                     categoria_id := categoria_out_id categoria_out;
                     categoria_nome := categoria_out_nome categoria_out |}) ;;
  await commit ;;
  mret categoria_out.

(** ** Requests and responses

    A request carries its body already parsed into the handler's argument
    types (an ill-formed body is answered 422 before any handler runs).

    Modelled from the spec: [contrib/dependencies.py], which provides
    [DatabaseDependency], is not among the sources. The spec has the
    session "supplied per-request via dependency injection" and has the
    controller be the one that "commits the change": a handler runs in a
    session of its own, and what it has not committed is gone when that
    session is closed. *)

Inductive Request : Type :=
  | POST_atleta (atleta_in : AtletaIn)
  | GET_atletas (limit offset : nat)
  | GET_atleta (id : UUID)
  | PATCH_atleta (id : UUID) (atleta_update : Dict)
  | DELETE_atleta (id : UUID)
  | POST_centro_treinamento (centro_treinamento_in : CentroTreinamentoIn)
  | GET_centros_treinamento (limit offset : nat)
  | GET_centro_treinamento (id : UUID)
  | POST_categoria (categoria_in : CategoriaIn).

Inductive Body : Type :=
  | NoContent
  | Detail (detail : string)
  | AtletaBody (atleta : Dict)
  | AtletaPageBody (page : Page Dict)
  | CentroTreinamentoBody (centro : CentroTreinamentoOut)
  | CentroTreinamentoPageBody (page : Page CentroTreinamentoOut)
  | CategoriaBody (categoria : CategoriaOut).

Record Response : Type := { status_code : nat; body : Body }.

(** An [HTTPException] is the response it describes; any other exception
    leaves the application as a plain 500. *)
Definition error_response (e : Exception) : Response :=
  match e with
  | HTTPException code detail => {| status_code := code; body := Detail detail |}
  | _ => {| status_code := 500; body := Detail "Internal Server Error" |}
  end.

(** The route's [status_code] and [response_model] applied to what the
    handler returned; the second component is the store once the session
    is closed. *)
Definition respond {A : Type} (status : nat) (response_model : A → World → Outcome Body)
    (result : Outcome A * World) : Response * Store :=
  let '(outcome, w) := result in
  (match outcome with
   | Raise e => error_response e
   | Return a =>
       match response_model a w with
       | Return b => {| status_code := status; body := b |}
       | Raise e => error_response e
       end
   end, db w).

Definition atleta_response_model (obj : Ref) (w : World) : Outcome Body :=
  match AtletaOut_model_validate (attributes obj w) with
  | Return out => Return (AtletaBody out)
  | Raise e => Raise e
  end.

Definition centro_response_model (c : CentroTreinamentoModel) (w : World)
  : Outcome Body :=
  match CentroTreinamentoOut_model_validate c with
  | Return out => Return (CentroTreinamentoBody out)
  | Raise e => Raise e
  end.

Definition centro_page_response_model (p : Page CentroTreinamentoModel) (w : World)
  : Outcome Body :=
  match validate_all CentroTreinamentoOut_model_validate (items p) with
  | Return outs =>
      Return (CentroTreinamentoPageBody
                {| items := outs; total := total p;
                   page_limit := page_limit _ p; page_offset := page_offset _ p |})
  | Raise e => Raise e
  end.

Definition serve (env : Env) (request : Request) (s : Store) : Response * Store :=
  let w := {| db := s; session := fresh_session |} in
  match request with
  | POST_atleta atleta_in =>
      respond 201 (λ out _, Return (AtletaBody out)) (atleta_post env atleta_in w)
  | GET_atletas limit offset =>
      respond 200 (λ page _, Return (AtletaPageBody page)) (atleta_get_all limit offset w)
  | GET_atleta id =>
      respond 200 atleta_response_model (atleta_get_by_id id w)
  | PATCH_atleta id atleta_update =>
      respond 200 atleta_response_model (atleta_patch id atleta_update w)
  | DELETE_atleta id =>
      respond 204 (λ _ _, Return NoContent) (atleta_delete id w)
  | POST_centro_treinamento centro_treinamento_in =>
      respond 201 (λ out _, Return (CentroTreinamentoBody out))
              (centro_treinamento_post env centro_treinamento_in w)
  | GET_centros_treinamento limit offset =>
      respond 200 centro_page_response_model (centro_treinamento_get_all limit offset w)
  | GET_centro_treinamento id =>
      respond 200 centro_response_model (centro_treinamento_get_by_id id w)
  | POST_categoria categoria_in =>
      respond 201 (λ out _, Return (CategoriaBody out)) (categoria_post env categoria_in w)
  end.

(** A history of requests, each with the external inputs it met. *)
Fixpoint serve_all (history : list (Env * Request)) (s : Store) : Store :=
  match history with
  | [] => s
  | (env, request) :: rest => serve_all rest (serve env request s).2
  end.

End Persistence.

Arguments items {A} _.
Arguments total {A} _.
Arguments page_limit {A} _.
Arguments page_offset {A} _.

(** ** Two concrete sets of constraints *)

(** Tables that refuse nothing. *)
Definition unconstrained : Store → Entity → bool := λ _ _, true.

(** A [unique=True] athlete column. *)
Definition unique_column (column : string) : Store → Entity → bool :=
  λ s e,
    match e with
    | EAtleta a =>
        match a !! column with
        | Some (VStr v) =>
            forallb (λ row : Dict,
                       match row !! column with
                       | Some (VStr v') => negb (String.eqb v v')
                       | _ => true
                       end) (atletas s)
        | _ => true
        end
    | _ => true
    end.
(** * Properties

    ** Shapes the statements speak about *)

(** The representation [post] builds: the dumped input under the two
    server-side fields. *)
Definition created_out (env : Env) (atleta_in : AtletaIn) : Dict :=
  <["id" := VUuid (uuid4 env)]>
    (<["create_at" := VDatetime {| wall := clock env; tzinfo := None |}]>
       (AtletaIn_model_dump atleta_in)).

(** The row [post] adds for it: the representation without its two
    nested schemas, and the two foreign keys. *)
Definition atleta_model_of (out : Dict) (categoria : CategoriaModel)
    (centro : CentroTreinamentoModel) : Dict :=
  <["centro_treinamento_id" := pk_value (centro_pk_id centro)]>
    (<["categoria_id" := pk_value (categoria_pk_id categoria)]>
       (AtletaOut_model_dump_exclude out)).

(** The store with one more athlete. *)
Definition with_atleta (s : Store) (row : Dict) : Store :=
  {| categorias := categorias s; centros_treinamento := centros_treinamento s;
     atletas := atletas s ++ [row] |}.

(** The store with one more category, keyed by the store. *)
Definition with_categoria (s : Store) (id : UUID) (n : string) : Store :=
  {| categorias := categorias s ++
       [{| categoria_pk_id := Some (next_pk (categoria_pk_id <$> categorias s));
           categoria_id := id; categoria_nome := n |}];
     centros_treinamento := centros_treinamento s; atletas := atletas s |}.

(** The store with one more training centre, keyed by the store. *)
Definition with_centro (s : Store) (out : CentroTreinamentoOut) : Store :=
  {| categorias := categorias s;
     centros_treinamento := centros_treinamento s ++
       [{| centro_pk_id := Some (next_pk (centro_pk_id <$> centros_treinamento s));
           centro_id := out_id out; centro_nome := out_nome out;
           centro_endereco := out_endereco out;
           centro_proprietario := out_proprietario out |}];
     atletas := atletas s |}.

(** The representation the training-centre [post] builds. *)
Definition centro_out (env : Env) (cin : CentroTreinamentoIn) : CentroTreinamentoOut :=
  {| out_id := uuid4 env; out_nome := nome cin; out_endereco := endereco cin;
     out_proprietario := proprietario cin |}.

(** The answer of the [except] branch of the athlete [post]. *)
Definition generic_500 : Response :=
  {| status_code := 500; body := Detail "Ocorreu um erro ao inserir os dados no banco." |}.

(** The answer to an exception no handler catches. *)
Definition server_error : Response :=
  {| status_code := 500; body := Detail "Internal Server Error" |}.

(** The [id] attribute of every stored athlete, in table order. *)
Definition ids (s : Store) : list (option Value) :=
  (λ row : Dict, row !! "id") <$> atletas s.

(** [keeps_db m]: the committed store is the same after [m] as before. *)
Definition keeps_db {A : Type} (m : M A) : Prop := ∀ w, db (m w).2 = db w.

(** The assignments of the [for] loop of [patch], in order. *)
Definition assign_all (items : list (string * Value)) (attrs : Dict) : Dict :=
  foldl (λ a kv, <[kv.1 := kv.2]> a) attrs items.

(** One step of the loading done by [execute_atletas]. *)
Definition load_hit (s : Store) (ir : nat * Dict) (m : gmap nat Dict) : gmap nat Dict :=
  match m !! ir.1 with
  | Some _ => m
  | None => <[ir.1 := load s ir.2]> m
  end.

(** *** The invariant of the store *)

(** A foreign key that is an integer key of the referenced table. *)
Definition refers_to (pks : list (option Z)) (fk : option Value) : Prop :=
  ∃ p : Z, fk = Some (VInt p) ∧ Some p ∈ pks.

(** Primary keys: set, and pairwise distinct. *)
Definition keys_ok (pks : list (option Z)) : Prop :=
  NoDup pks ∧ Forall is_Some pks.

(** What every request keeps: keys are in order and every athlete refers to
    a stored category and a stored training centre. *)
Definition store_ok (s : Store) : Prop :=
  keys_ok (categoria_pk_id <$> categorias s)
  ∧ keys_ok (centro_pk_id <$> centros_treinamento s)
  ∧ Forall (λ atleta : Dict,
              refers_to (categoria_pk_id <$> categorias s) (atleta !! "categoria_id")
              ∧ refers_to (centro_pk_id <$> centros_treinamento s)
                          (atleta !! "centro_treinamento_id"))
           (atletas s).

(** A foreign key that is not null and is the primary key of exactly one
    row of the referenced table. *)
Definition references_one {A : Type} (pk_of : A → option Z) (table : list A)
    (fk : option Value) : Prop :=
  ∃ (p : Z) (row : A),
    fk = Some (VInt p)
    ∧ List.filter (λ r, bool_decide (pk_of r = Some p)) table = [row].

(** The two foreign keys of an athlete row. *)
Definition foreign_keys_valid (s : Store) (atleta : Dict) : Prop :=
  references_one categoria_pk_id (categorias s) (atleta !! "categoria_id")
  ∧ references_one centro_pk_id (centros_treinamento s)
                   (atleta !! "centro_treinamento_id").

(** The rows a selection of athletes finds, each with its position. *)
Definition hits_of (p : Dict → bool) (s : Store) : list (nat * Dict) :=
  List.filter (λ ir : nat * Dict, p ir.2) (imap (λ i row, (i, row)) (atletas s)).

(** What the output schema shows of a stored athlete: the loaded
    attributes without the two foreign-key columns. *)
Definition representation (s : Store) (row : Dict) : Dict :=
  delete "categoria_id" (delete "centro_treinamento_id" (load s row)).

(** What the output schema shows of a stored training centre. *)
Definition centro_representation (c : CentroTreinamentoModel) : CentroTreinamentoOut :=
  {| out_id := centro_id c; out_nome := centro_nome c;
     out_endereco := centro_endereco c; out_proprietario := centro_proprietario c |}.

(** A stored training centre that [CentroTreinamentoOut] accepts: a
    version 4 id and the three bounds. *)
Definition centro_row_valid (c : CentroTreinamentoModel) : bool :=
  is_uuid4 (centro_id c)
  && CentroTreinamentoIn_valid {| nome := centro_nome c; endereco := centro_endereco c;
                                  proprietario := centro_proprietario c |}.

(** ** A small gym

    One category and one training centre, created through the API, and the
    athletes the examples send. *)

Definition env_a : Env :=
  {| urandom := 12345678901234567890123456789; clock := 1700000000000000 |}.

Definition env_b : Env :=
  {| urandom := 99999999999999999999999999999999; clock := 1700000000000001 |}.

Definition env_c : Env := {| urandom := 7; clock := 1700000000000002 |}.

Definition env_d : Env := {| urandom := 8; clock := 1700000000000003 |}.

Definition scale : CategoriaIn := {| categoria_in_nome := "Scale" |}.

Definition ct_king : CentroTreinamentoIn :=
  {| nome := "CT King"; endereco := "Rua X, Q02"; proprietario := "Marcos" |}.

Definition joao : AtletaIn :=
  {| campos := {[ "nome" := VStr "Joao"; "cpf" := VStr "12345678900";
                  "idade" := VInt 25 ]};
     categoria := scale;
     centro_treinamento := {| atleta_centro_nome := "CT King" |} |}.

(** Maria gives the [cpf] of Joao. *)
Definition maria : AtletaIn :=
  {| campos := {[ "nome" := VStr "Maria"; "cpf" := VStr "12345678900";
                  "idade" := VInt 31 ]};
     categoria := scale;
     centro_treinamento := {| atleta_centro_nome := "CT King" |} |}.

(** Pedro names a category nobody created. *)
Definition pedro : AtletaIn :=
  {| campos := {[ "nome" := VStr "Pedro"; "cpf" := VStr "98765432100" ]};
     categoria := {| categoria_in_nome := "Elite" |};
     centro_treinamento := {| atleta_centro_nome := "CT King" |} |}.

(** Ana names a training centre nobody created. *)
Definition ana : AtletaIn :=
  {| campos := {[ "nome" := VStr "Ana"; "cpf" := VStr "11122233344" ]};
     categoria := scale;
     centro_treinamento := {| atleta_centro_nome := "CT Queen" |} |}.

Definition livia : AtletaIn :=
  {| campos := {[ "nome" := VStr "Lia"; "cpf" := VStr "55566677788" ]};
     categoria := scale;
     centro_treinamento := {| atleta_centro_nome := "CT King" |} |}.

Definition opening : list (Env * Request) :=
  [ (env_a, POST_categoria scale); (env_b, POST_centro_treinamento ct_king) ].

Definition gym : Store := serve_all unconstrained opening empty_store.

Definition gym_with_joao : Store :=
  serve_all unconstrained (opening ++ [(env_c, POST_atleta joao)]) empty_store.

Definition joao_id : UUID := uuid4 env_c.

(** ** Lemmas *)

Arguments flush : simpl never.
Arguments insert_entity : simpl never.

(** *** [uuid4] yields a version 4 identifier *)

Lemma testbit_uuid_of_random (r : N) (i : N) :
  N.testbit (uuid_of_random r) i =
    (((N.testbit r i && N.testbit (N.ones 128) i
       && negb (N.testbit (N.shiftl 0xc000 48) i)
       || N.testbit (N.shiftl 0x8000 48) i)
      && negb (N.testbit (N.shiftl 0xf000 64) i))
     || N.testbit (N.shiftl 4 76) i).
Proof.
  unfold uuid_of_random.
  by rewrite N.lor_spec, N.ldiff_spec, N.lor_spec, N.ldiff_spec, N.land_spec.
Qed.

Lemma land_single_bit (u : N) (k : N) :
  N.land u (2 ^ k) = if N.testbit u k then (2 ^ k)%N else 0%N.
Proof.
  apply N.bits_inj. intros i.
  rewrite N.land_spec, N.pow2_bits_eqb.
  destruct (N.eqb_spec k i) as [-> | Hne].
  - destruct (N.testbit u i); simpl;
      rewrite ?N.pow2_bits_true, ?N.bits_0; reflexivity.
  - rewrite andb_false_r.
    destruct (N.testbit u k);
      rewrite ?N.pow2_bits_false, ?N.bits_0 by done; reflexivity.
Qed.

Lemma version_nibble (u : N) :
  N.testbit u 76 = false → N.testbit u 77 = false →
  N.testbit u 78 = true → N.testbit u 79 = false →
  N.land (N.shiftr u 76) 0xf = 4%N.
Proof.
  intros H0 H1 H2 H3. apply N.bits_inj. intros i.
  rewrite N.land_spec, N.shiftr_spec by apply N.le_0_l.
  destruct (decide (i < 4)%N) as [Hlt|Hge].
  - assert (i = 0 ∨ i = 1 ∨ i = 2 ∨ i = 3)%N as [-> | [-> | [-> | ->]]] by lia;
      [ change (0 + 76)%N with 76%N; rewrite H0
      | change (1 + 76)%N with 77%N; rewrite H1
      | change (2 + 76)%N with 78%N; rewrite H2
      | change (3 + 76)%N with 79%N; rewrite H3 ]; reflexivity.
  - rewrite (N.bits_above_log2 0xf i), (N.bits_above_log2 4 i), andb_false_r;
      [done | simpl; lia | simpl; lia].
Qed.

Lemma uuid4_is_uuid4 (r : N) : is_uuid4 (uuid_of_random r) = true.
Proof.
  unfold is_uuid4, version, variant_rfc_4122.
  change (N.shiftl 0x8000 48) with (2 ^ 63)%N.
  change (N.shiftl 0x4000 48) with (2 ^ 62)%N.
  rewrite !land_single_bit, !testbit_uuid_of_random.
  replace (N.testbit (N.ones 128) 63) with true by (by vm_compute).
  replace (N.testbit (N.ones 128) 62) with true by (by vm_compute).
  rewrite (version_nibble (uuid_of_random r)).
  - destruct (N.testbit r 63), (N.testbit r 62); vm_compute; reflexivity.
  - rewrite testbit_uuid_of_random. destruct (N.testbit r 76); by vm_compute.
  - rewrite testbit_uuid_of_random. destruct (N.testbit r 77); by vm_compute.
  - rewrite testbit_uuid_of_random. destruct (N.testbit r 78); by vm_compute.
  - rewrite testbit_uuid_of_random. destruct (N.testbit r 79); by vm_compute.
Qed.

(** *** A commit that only inserts *)

Lemma imap_no_update (l : list Dict) :
  imap (λ i row, default row (columns <$> (∅ : gmap nat Dict) !! i)) l = l.
Proof.
  rewrite (imap_ext _ (const id) l).
  - by rewrite imap_const, list_fmap_id.
  - intros i x _. by rewrite lookup_empty.
Qed.

Lemma filter_no_delete (g : nat → nat) (l : list Dict) :
  List.map snd
    (List.filter (λ ir : nat * Dict, bool_decide (ir.1 ∉ (∅ : gset nat)))
       (imap (λ i row, (g i, row)) l)) = l.
Proof.
  revert g. induction l as [|row l IH]; intros g; [done|].
  cbn [imap List.filter fst].
  rewrite bool_decide_true by set_solver. cbn [List.map snd]. f_equal.
  apply (IH (g ∘ S)).
Qed.

Lemma flush_new_only constraints (s : Store) (es : list Entity) :
  flush constraints s {| new := es; identity_map := ∅; deleted := ∅ |}
  = insert_all constraints s es.
Proof.
  unfold flush; simpl. destruct (insert_all constraints s es) as [[cs ts as']|]; [|done].
  simpl. by rewrite imap_no_update, (filter_no_delete (λ i, i)).
Qed.

(** *** Selections *)

Lemma find_none_filter {A} (p : A → bool) (l : list A) :
  (∀ a, a ∈ l → p a = false) → List.filter p l = [].
Proof.
  induction l as [|a l IH]; intros H; [done|]. simpl.
  rewrite (H a) by left. apply IH. intros b Hb. apply H. by right.
Qed.

Lemma first_filter_some {A} (p : A → bool) (l : list A) :
  (∃ a, a ∈ l ∧ p a = true) →
  ∃ a, first (List.filter p l) = Some a ∧ a ∈ l ∧ p a = true.
Proof.
  induction l as [|b l IH]; intros (a & Ha & Hp).
  - by apply elem_of_nil in Ha.
  - simpl. destruct (p b) eqn:Hb.
    + exists b. split; [done|]. split; [left|done].
    + apply elem_of_cons in Ha as [->|Ha]; [congruence|].
      destruct IH as (c & Hc & Hin & Hpc); [by exists a|].
      exists c. split; [done|]. split; [by right|done].
Qed.

Lemma first_filter_elem {A} (p : A → bool) (l : list A) (a : A) :
  first (List.filter p l) = Some a → a ∈ l ∧ p a = true.
Proof.
  intros H. rewrite list_elem_of_In. apply filter_In.
  destruct (List.filter p l) as [|b l'] eqn:E; [done|].
  injection H as ->. left. done.
Qed.

Lemma filter_by_id_false (id : UUID) (row : Dict) :
  row !! "id" ≠ Some (VUuid id) → filter_by_id id row = false.
Proof.
  unfold filter_by_id. intros Hne.
  destruct (row !! "id") as [[]|]; try done.
  apply bool_decide_eq_false. congruence.
Qed.

Lemma filter_by_id_true (id : UUID) (row : Dict) :
  row !! "id" = Some (VUuid id) → filter_by_id id row = true.
Proof. unfold filter_by_id. intros ->. by apply bool_decide_eq_true. Qed.

Lemma no_hits (p : Dict → bool) (g : nat → nat) (rows : list Dict) :
  (∀ row, row ∈ rows → p row = false) →
  List.filter (λ ir : nat * Dict, p ir.2) (imap (λ i row, (g i, row)) rows) = [].
Proof.
  intros Hno. apply find_none_filter. intros [i row] Hin.
  apply elem_of_lookup_imap in Hin as (j & row' & [= -> ->] & Hj).
  apply Hno. by eapply list_elem_of_lookup_2.
Qed.

Lemma find_unique {A} (pk_of : A → option Z) (table : list A) (a : A) (p : Z) :
  NoDup (pk_of <$> table) → a ∈ table → pk_of a = Some p →
  List.find (λ c, bool_decide (pk_of c = Some p)) table = Some a.
Proof.
  induction table as [|b table IH]; intros Hnd Hin Hp.
  - by apply elem_of_nil in Hin.
  - rewrite fmap_cons in Hnd. apply NoDup_cons in Hnd as [Hfresh Hnd]. simpl.
    destruct (decide (pk_of b = Some p)) as [Hb|Hb].
    + rewrite bool_decide_true by done.
      apply elem_of_cons in Hin as [->|Hin]; [done|].
      exfalso. apply Hfresh. rewrite Hb, <- Hp. by apply list_elem_of_fmap_2.
    + rewrite bool_decide_false by done.
      apply elem_of_cons in Hin as [->|Hin]; [done|]. by apply IH.
Qed.

Lemma unique_key_one_row {A} (pk_of : A → option Z) (table : list A) (p : Z) :
  NoDup (pk_of <$> table) → Some p ∈ pk_of <$> table →
  ∃ row, List.filter (λ r, bool_decide (pk_of r = Some p)) table = [row].
Proof.
  induction table as [|a table IH]; intros Hnd Hin.
  - by apply elem_of_nil in Hin.
  - rewrite fmap_cons in Hnd, Hin. apply NoDup_cons in Hnd as [Hfresh Hnd].
    simpl. destruct (decide (pk_of a = Some p)) as [Ha|Ha].
    + rewrite bool_decide_true by done. exists a. f_equal.
      apply find_none_filter. intros b Hb. apply bool_decide_eq_false.
      intros Hpb. apply Hfresh. rewrite Ha, <- Hpb. by apply list_elem_of_fmap_2.
    + rewrite bool_decide_false by done. apply IH; [done|].
      apply elem_of_cons in Hin as [Heq|Hin]; [congruence|done].
Qed.

Lemma contains_middle (before s after : string) : contains s (before ++ s ++ after).
Proof. by exists before, after. Qed.

(** *** The three creations, step by step *)

Lemma dump_lookup_id (a : AtletaIn) : AtletaIn_model_dump a !! "id" = campos a !! "id".
Proof. unfold AtletaIn_model_dump. by rewrite !lookup_insert_ne. Qed.

Lemma dump_lookup_create_at (a : AtletaIn) :
  AtletaIn_model_dump a !! "create_at" = campos a !! "create_at".
Proof. unfold AtletaIn_model_dump. by rewrite !lookup_insert_ne. Qed.

(** The whole of [post] once both lookups have found a row. *)
Lemma post_found constraints env atleta_in s cat centro :
  first (List.filter (λ c, bool_decide (categoria_nome c
            = categoria_in_nome (categoria atleta_in))) (categorias s)) = Some cat →
  first (List.filter (λ c, bool_decide (centro_nome c
            = atleta_centro_nome (centro_treinamento atleta_in)))
           (centros_treinamento s)) = Some centro →
  serve constraints env (POST_atleta atleta_in) s =
    match campos atleta_in !! "id", campos atleta_in !! "create_at" with
    | None, None =>
        let out := created_out env atleta_in in
        let row := atleta_model_of out cat centro in
        if constraints s (EAtleta row)
        then ({| status_code := 201; body := AtletaBody out |}, with_atleta s row)
        else (generic_500, s)
    | _, _ => (generic_500, s)
    end.
Proof.
  intros Hcat Hcentro.
  unfold serve, atleta_post, mbind, M_bind, await, execute_categorias,
    execute_centros_treinamento; cbn.
  rewrite Hcat; cbn. rewrite Hcentro; cbn.
  unfold try_except, lift, AtletaOut_init, mbind, M_bind; cbn.
  rewrite dump_lookup_id, dump_lookup_create_at.
  destruct (campos atleta_in !! "id"); [done|].
  destruct (campos atleta_in !! "create_at"); [done|].
  unfold commit, add; cbn.
  rewrite flush_new_only; cbn. unfold insert_entity; cbn.
  fold (created_out env atleta_in).
  fold (atleta_model_of (created_out env atleta_in) cat centro).
  destruct (constraints s _); done.
Qed.

Lemma created_inv constraints env atleta_in s b s' :
  serve constraints env (POST_atleta atleta_in) s
    = ({| status_code := 201; body := b |}, s') →
  ∃ cat centro,
    first (List.filter (λ c, bool_decide (categoria_nome c
              = categoria_in_nome (categoria atleta_in))) (categorias s)) = Some cat
    ∧ first (List.filter (λ c, bool_decide (centro_nome c
                = atleta_centro_nome (centro_treinamento atleta_in)))
               (centros_treinamento s)) = Some centro
    ∧ b = AtletaBody (created_out env atleta_in)
    ∧ s' = with_atleta s (atleta_model_of (created_out env atleta_in) cat centro).
Proof.
  destruct (first (List.filter (λ c, bool_decide (categoria_nome c
               = categoria_in_nome (categoria atleta_in))) (categorias s)))
    as [cat|] eqn:Hcat.
  2:{ unfold serve, atleta_post, mbind, M_bind, await, execute_categorias.
      cbn. by rewrite Hcat. }
  destruct (first (List.filter (λ c, bool_decide (centro_nome c
               = atleta_centro_nome (centro_treinamento atleta_in)))
              (centros_treinamento s))) as [centro|] eqn:Hcentro.
  2:{ unfold serve, atleta_post, mbind, M_bind, await, execute_categorias,
        execute_centros_treinamento.
      cbn. rewrite Hcat; cbn. by rewrite Hcentro. }
  rewrite (post_found _ _ _ _ _ _ Hcat Hcentro).
  destruct (campos atleta_in !! "id"); [done|].
  destruct (campos atleta_in !! "create_at"); [done|].
  cbn. destruct (constraints s _); [|done].
  intros [= <- <-]. by exists cat, centro.
Qed.

Lemma post_centro_run constraints env cin s :
  serve constraints env (POST_centro_treinamento cin) s =
    if is_uuid4 (uuid4 env) && CentroTreinamentoIn_valid cin
    then
      if constraints s (ECentroTreinamento
                          (CentroTreinamentoModel_init (centro_out env cin)))
      then ({| status_code := 201; body := CentroTreinamentoBody (centro_out env cin) |},
            with_centro s (centro_out env cin))
      else (server_error, s)
    else (server_error, s).
Proof.
  unfold serve, centro_treinamento_post, mbind, M_bind, lift,
    CentroTreinamentoOut_init.
  destruct cin as [n e p]; cbn [centro_model_dump nome endereco proprietario].
  destruct (is_uuid4 (uuid4 env) && CentroTreinamentoIn_valid _); [|done].
  unfold commit, await; cbn. rewrite flush_new_only; cbn.
  unfold insert_entity; cbn.
  by destruct (constraints s _).
Qed.

Lemma post_categoria_run constraints env cin s :
  serve constraints env (POST_categoria cin) s =
    let out := {| categoria_out_id := uuid4 env;
                  categoria_out_nome := categoria_in_nome cin |} in
    if constraints s (ECategoria {| categoria_pk_id := None;
                                     categoria_id := uuid4 env;
                                     categoria_nome := categoria_in_nome cin |})
    then ({| status_code := 201; body := CategoriaBody out |},
          with_categoria s (uuid4 env) (categoria_in_nome cin))
    else (server_error, s).
Proof.
  unfold serve, categoria_post, mbind, M_bind, commit, await; cbn.
  rewrite flush_new_only; cbn. unfold insert_entity; cbn.
  by destruct (constraints s _).
Qed.

(** *** Handlers that cannot write *)

Lemma keeps_db_ret {A} (a : A) : keeps_db (mret a).
Proof. done. Qed.

Lemma keeps_db_raise {A} e : keeps_db (@raise A e).
Proof. done. Qed.

Lemma keeps_db_bind {A B} (m : M A) (k : A → M B) :
  keeps_db m → (∀ a, keeps_db (k a)) → keeps_db (m ≫= k).
Proof.
  intros Hm Hk w. unfold mbind, M_bind. specialize (Hm w).
  destruct (m w) as [[a|e] w']; simpl in *; [|done].
  by rewrite Hk.
Qed.

Lemma keeps_db_not_awaited {A} (c : Coroutine A) : keeps_db (not_awaited c).
Proof. done. Qed.

Lemma keeps_db_execute_atletas p : keeps_db (await (execute_atletas p)).
Proof. done. Qed.

Lemma keeps_db_execute_centros p : keeps_db (await (execute_centros_treinamento p)).
Proof. done. Qed.

Lemma keeps_db_setattr obj key value : keeps_db (setattr obj key value).
Proof. done. Qed.

Lemma keeps_db_for_items items body :
  (∀ key value, keeps_db (body key value)) → keeps_db (for_items items body).
Proof.
  intros Hbody. induction items as [|[key value] rest IH]; simpl.
  - apply keeps_db_ret.
  - apply keeps_db_bind; [apply Hbody | done].
Qed.

Lemma keeps_db_model_validate_each atletas : keeps_db (model_validate_each atletas).
Proof. done. Qed.

Lemma respond_keeps_db {A} status (model : A → World → Outcome Body) (m : M A) s :
  keeps_db m →
  (respond status model (m {| db := s; session := fresh_session |})).2 = s.
Proof.
  intros Hm. specialize (Hm {| db := s; session := fresh_session |}).
  unfold respond. by destruct (m _) as [o w].
Qed.

Lemma keeps_db_atleta_get_all limit offset : keeps_db (atleta_get_all limit offset).
Proof.
  apply keeps_db_bind; [apply keeps_db_execute_atletas|]. intros atletas.
  apply keeps_db_bind; [apply keeps_db_model_validate_each|]. intros lista.
  apply keeps_db_ret.
Qed.

Lemma keeps_db_atleta_get_by_id id : keeps_db (atleta_get_by_id id).
Proof.
  apply keeps_db_bind; [apply keeps_db_execute_atletas|]. intros found.
  destruct (first found); [apply keeps_db_ret | apply keeps_db_raise].
Qed.

Lemma keeps_db_atleta_patch constraints id atleta_update :
  keeps_db (atleta_patch constraints id atleta_update).
Proof.
  apply keeps_db_bind; [apply keeps_db_execute_atletas|]. intros found.
  destruct (first found) as [atleta|]; [|apply keeps_db_raise].
  apply keeps_db_bind.
  { apply keeps_db_for_items. intros. apply keeps_db_setattr. }
  intros _. apply keeps_db_bind; [apply keeps_db_not_awaited|]. intros _.
  apply keeps_db_bind; [apply keeps_db_not_awaited|]. intros _.
  apply keeps_db_ret.
Qed.

Lemma keeps_db_atleta_delete constraints id : keeps_db (atleta_delete constraints id).
Proof.
  apply keeps_db_bind; [apply keeps_db_execute_atletas|]. intros found.
  destruct (first found) as [atleta|]; [|apply keeps_db_raise].
  apply keeps_db_bind; [apply keeps_db_not_awaited|]. intros _.
  apply keeps_db_bind; [apply keeps_db_not_awaited|]. intros _.
  apply keeps_db_ret.
Qed.

Lemma keeps_db_centro_get_all limit offset :
  keeps_db (centro_treinamento_get_all limit offset).
Proof.
  apply keeps_db_bind; [apply keeps_db_execute_centros|]. intros found.
  apply keeps_db_ret.
Qed.

Lemma keeps_db_centro_get_by_id id : keeps_db (centro_treinamento_get_by_id id).
Proof.
  apply keeps_db_bind; [apply keeps_db_execute_centros|]. intros found.
  destruct (first found); [apply keeps_db_ret | apply keeps_db_raise].
Qed.

(** Reads, and the two handlers that await neither [delete] nor [commit],
    leave the store as it was. *)
Lemma serve_keeps_store constraints env request s :
  match request with
  | POST_atleta _ | POST_centro_treinamento _ | POST_categoria _ => False
  | _ => True
  end →
  (serve constraints env request s).2 = s.
Proof.
  destruct request; try done; intros _; unfold serve; apply respond_keeps_db;
    auto using keeps_db_atleta_get_all, keeps_db_atleta_get_by_id,
      keeps_db_atleta_patch, keeps_db_atleta_delete, keeps_db_centro_get_all,
      keeps_db_centro_get_by_id.
Qed.

(** What a request can do to the store: nothing, or, answering 201, append
    one row to one table. *)
Lemma serve_cases constraints env request s :
  let result := serve constraints env request s in
  result.2 = s
  ∨ status_code result.1 = 201
    ∧ ((∃ atleta_in cat centro,
          request = POST_atleta atleta_in ∧ cat ∈ categorias s
          ∧ centro ∈ centros_treinamento s
          ∧ result.2 = with_atleta s
                         (atleta_model_of (created_out env atleta_in) cat centro))
       ∨ (∃ id n, result.2 = with_categoria s id n)
       ∨ (∃ out, result.2 = with_centro s out)).
Proof.
  intros result; subst result.
  destruct request as [atleta_in| | | | |cin| | |cin];
    try (left; by apply serve_keeps_store).
  - destruct (first (List.filter (λ c, bool_decide (categoria_nome c
                 = categoria_in_nome (categoria atleta_in))) (categorias s)))
      as [cat|] eqn:Hcat.
    2:{ left. unfold serve, atleta_post, mbind, M_bind, await, execute_categorias.
        cbn. by rewrite Hcat. }
    destruct (first (List.filter (λ c, bool_decide (centro_nome c
                 = atleta_centro_nome (centro_treinamento atleta_in)))
                (centros_treinamento s))) as [centro|] eqn:Hcentro.
    2:{ left. unfold serve, atleta_post, mbind, M_bind, await, execute_categorias,
          execute_centros_treinamento.
        cbn. rewrite Hcat; cbn. by rewrite Hcentro. }
    rewrite (post_found _ _ _ _ _ _ Hcat Hcentro).
    destruct (campos atleta_in !! "id"); [by left|].
    destruct (campos atleta_in !! "create_at"); [by left|].
    cbn. destruct (constraints s _); [|by left].
    right. split; [done|]. left. exists atleta_in, cat, centro.
    apply first_filter_elem in Hcat as [? _].
    apply first_filter_elem in Hcentro as [? _]. done.
  - rewrite post_centro_run.
    destruct (is_uuid4 _ && _); [|by left].
    destruct (constraints s _); [|by left].
    right. split; [done|]. right. right. by eexists.
  - rewrite post_categoria_run. cbn.
    destruct (constraints s _); [|by left].
    right. split; [done|]. right. left. by eexists _, _.
Qed.

Lemma serve_ids constraints env request s :
  ids (serve constraints env request s).2
    `sublist_of` (ids s ++ [Some (VUuid (uuid4 env))])%list.
Proof.
  destruct (serve_cases constraints env request s) as [->|[_ Hcase]].
  { by apply sublist_inserts_r. }
  destruct Hcase as [(ain & cat & centro & _ & _ & _ & ->)
                    |[(id & n & ->)|(out & ->)]]; unfold ids; simpl;
    try by apply sublist_inserts_r.
  rewrite fmap_app. simpl. unfold atleta_model_of, AtletaOut_model_dump_exclude,
    created_out.
  rewrite !lookup_insert_ne, !lookup_delete_ne, lookup_insert_eq by done.
  done.
Qed.

(** *** The invariant is kept *)

Lemma next_pk_bound (used : list (option Z)) (q : Z) :
  Some q ∈ used → (q < next_pk used)%Z.
Proof.
  unfold next_pk. induction used as [|[p|] used IH]; intros Hin.
  - by apply elem_of_nil in Hin.
  - apply elem_of_cons in Hin as [[= ->]|Hin]; cbn; [lia|].
    specialize (IH Hin). cbn in IH. lia.
  - apply elem_of_cons in Hin as [?|Hin]; [done|]. cbn. by apply IH.
Qed.

Lemma next_pk_fresh (used : list (option Z)) : Some (next_pk used) ∉ used.
Proof. intros Hin. apply next_pk_bound in Hin. lia. Qed.

Lemma keys_ok_next (pks : list (option Z)) :
  keys_ok pks → keys_ok (pks ++ [Some (next_pk pks)]).
Proof.
  intros [Hnd Hsome]. split.
  - apply NoDup_app. split; [done|]. split; [|apply NoDup_singleton].
    intros pk Hin ->%list_elem_of_singleton. by apply next_pk_fresh in Hin.
  - apply Forall_app. split; [done|]. by repeat constructor.
Qed.

Lemma refers_to_app pks more fk : refers_to pks fk → refers_to (pks ++ more) fk.
Proof. intros (p & -> & Hin). exists p. split; [done|]. apply elem_of_app. by left. Qed.

Lemma refers_to_row {A} (pk_of : A → option Z) (table : list A) (row : A) :
  Forall is_Some (pk_of <$> table) → row ∈ table →
  refers_to (pk_of <$> table) (Some (pk_value (pk_of row))).
Proof.
  intros Hsome Hin.
  assert (pk_of row ∈ pk_of <$> table) as Hpk by by apply list_elem_of_fmap_2.
  rewrite Forall_forall in Hsome. destruct (Hsome _ Hpk) as [p Hp].
  exists p. rewrite Hp in *. done.
Qed.

Lemma serve_store_ok constraints env request s :
  store_ok s → store_ok (serve constraints env request s).2.
Proof.
  intros (Hcat & Hcentro & Hatl).
  destruct (serve_cases constraints env request s) as [->|[_ Hcase]]; [done|].
  destruct Hcase as [(ain & cat & centro & _ & Hc & Ht & ->)
                    |[(id & n & ->)|(out & ->)]]; unfold store_ok; simpl.
  - split; [done|]. split; [done|]. apply Forall_app. split; [done|].
    apply Forall_singleton. unfold atleta_model_of. split.
    + rewrite lookup_insert_ne, lookup_insert_eq by done.
      apply refers_to_row; [apply Hcat | done].
    + rewrite lookup_insert_eq.
      apply refers_to_row; [apply Hcentro | done].
  - rewrite fmap_app. simpl. split; [by apply keys_ok_next|]. split; [done|].
    eapply Forall_impl; [exact Hatl|]. intros a [? ?]. split; [|done].
    by apply refers_to_app.
  - rewrite fmap_app. simpl. split; [done|]. split; [by apply keys_ok_next|].
    eapply Forall_impl; [exact Hatl|]. intros a [? ?]. split; [done|].
    by apply refers_to_app.
Qed.

Lemma empty_store_ok : store_ok empty_store.
Proof. repeat split; simpl; constructor. Qed.

Lemma serve_all_store_ok constraints history s :
  store_ok s → store_ok (serve_all constraints history s).
Proof.
  revert s. induction history as [|[env request] rest IH]; intros s Hs; [done|].
  simpl. apply IH. by apply serve_store_ok.
Qed.

Lemma store_ok_foreign_keys (s : Store) :
  store_ok s → Forall (foreign_keys_valid s) (atletas s).
Proof.
  intros ([Hcat _] & [Hcentro _] & Hatl).
  eapply Forall_impl; [exact Hatl|].
  intros a [(p & Hp & Hin) (q & Hq & Hin')]. split.
  - destruct (unique_key_one_row _ _ _ Hcat Hin) as [row Hrow]. by exists p, row.
  - destruct (unique_key_one_row _ _ _ Hcentro Hin') as [row Hrow]. by exists q, row.
Qed.

(** *** Reading back a created athlete *)

(** [GET] of an id that only the last row carries. *)
Lemma get_last_row constraints env s (row : Dict) (id : UUID) :
  (∀ r : Dict, r ∈ atletas s → r !! "id" ≠ Some (VUuid id)) →
  row !! "id" = Some (VUuid id) →
  serve constraints env (GET_atleta id) (with_atleta s row) =
    (match AtletaOut_model_validate (load (with_atleta s row) row) with
     | Return out => {| status_code := 200; body := AtletaBody out |}
     | Raise e => error_response e
     end, with_atleta s row).
Proof.
  intros Hfresh Hid.
  unfold serve, atleta_get_by_id, mbind, M_bind, await, execute_atletas.
  cbn [db session with_atleta atletas fresh_session identity_map new deleted].
  rewrite imap_app, List.filter_app.
  rewrite (no_hits (filter_by_id id) (λ i, i)) by
    (intros r Hr; by apply filter_by_id_false, Hfresh).
  cbn. rewrite (filter_by_id_true id row Hid). cbn.
  unfold atleta_response_model, attributes. cbn.
  rewrite lookup_empty, lookup_insert_eq. cbn.
  by destruct (AtletaOut_model_validate _).
Qed.

Lemma load_created (s : Store) (out extra : Dict) cat centro :
  store_ok s → cat ∈ categorias s → centro ∈ centros_treinamento s →
  load (with_atleta s extra) (atleta_model_of out cat centro) =
    <["centro_treinamento" := VDict {["nome" := VStr (centro_nome centro)]}]>
      (<["categoria" := VDict {["nome" := VStr (categoria_nome cat)]}]>
         (atleta_model_of out cat centro)).
Proof.
  intros ([Hcat_nd Hcat_some] & [Hcentro_nd Hcentro_some] & _) Hcat Hcentro.
  assert (is_Some (categoria_pk_id cat)) as [p Hp].
  { rewrite Forall_forall in Hcat_some. apply Hcat_some.
    by apply list_elem_of_fmap_2. }
  assert (is_Some (centro_pk_id centro)) as [q Hq].
  { rewrite Forall_forall in Hcentro_some. apply Hcentro_some.
    by apply list_elem_of_fmap_2. }
  unfold load, atleta_model_of.
  rewrite lookup_insert_eq, lookup_insert_ne, lookup_insert_eq by done.
  rewrite Hp, Hq. cbn [pk_value related_categoria related_centro_treinamento
                        with_atleta categorias centros_treinamento].
  by rewrite (find_unique _ _ cat p), (find_unique _ _ centro q).
Qed.

Lemma created_round_trip env atleta_in cat centro :
  campos atleta_in !! "categoria_id" = None →
  campos atleta_in !! "centro_treinamento_id" = None →
  categoria_nome cat = categoria_in_nome (categoria atleta_in) →
  centro_nome centro = atleta_centro_nome (centro_treinamento atleta_in) →
  delete "categoria_id"
    (delete "centro_treinamento_id"
       (<["centro_treinamento" := VDict {["nome" := VStr (centro_nome centro)]}]>
          (<["categoria" := VDict {["nome" := VStr (categoria_nome cat)]}]>
             (atleta_model_of (created_out env atleta_in) cat centro))))
  = created_out env atleta_in.
Proof.
  intros Hc Ht -> ->. apply map_eq. intros k.
  unfold atleta_model_of, AtletaOut_model_dump_exclude, created_out,
    AtletaIn_model_dump.
  rewrite !lookup_delete, !lookup_insert, !lookup_delete, !lookup_insert.
  repeat case_decide; simplify_eq; done.
Qed.

(** *** The merge loop of [patch] *)

Lemma for_items_setattr (obj : Ref) (items : list (string * Value)) (w : World) :
  for_items items (setattr obj) w =
    (Return (),
     {| db := db w;
        session := {| new := new (session w);
                      identity_map := alter (assign_all items) obj
                                            (identity_map (session w));
                      deleted := deleted (session w) |} |}).
Proof.
  revert w. induction items as [|[key value] rest IH]; intros [s [n m d]].
  - cbn. do 3 f_equal. symmetry. by apply alter_id.
  - cbn [for_items]. unfold mbind, M_bind. cbn. rewrite IH. cbn.
    by rewrite alter_alter_eq.
Qed.

Lemma assign_all_lookup (items : list (string * Value)) (attrs : Dict) (k : string) :
  NoDup items.*1 →
  assign_all items attrs !! k
  = match (list_to_map items : Dict) !! k with
    | Some v => Some v
    | None => attrs !! k
    end.
Proof.
  revert attrs. induction items as [|[key value] rest IH]; intros attrs Hnd.
  - done.
  - rewrite fmap_cons in Hnd. apply NoDup_cons in Hnd as [Hfresh Hnd].
    change (assign_all ((key, value) :: rest) attrs)
      with (assign_all rest (<[key := value]> attrs)).
    rewrite IH by done.
    change (list_to_map ((key, value) :: rest) : Dict)
      with (<[key := value]> (list_to_map rest : Dict)).
    destruct (decide (key = k)) as [->|Hne].
    + rewrite (not_elem_of_list_to_map_1 rest k) by done.
      by rewrite !lookup_insert_eq.
    + by rewrite !lookup_insert_ne by done.
Qed.

(** The loop assigns the payload on top of the loaded attributes. *)
Lemma assign_all_union (atleta_up attrs : Dict) :
  assign_all (map_to_list atleta_up) attrs = atleta_up ∪ attrs.
Proof.
  apply map_eq. intros k.
  rewrite assign_all_lookup by apply NoDup_fst_map_to_list.
  rewrite list_to_map_to_list, lookup_union.
  by destruct (atleta_up !! k), (attrs !! k).
Qed.

Lemma load_hits_other (s : Store) (hits : list (nat * Dict)) (i : nat) :
  i ∉ hits.*1 → foldr (load_hit s) ∅ hits !! i = None.
Proof.
  induction hits as [|[j row] hits IH]; intros Hi; [done|].
  rewrite fmap_cons, not_elem_of_cons in Hi. destruct Hi as [Hne Hi].
  cbn [foldr]. unfold load_hit at 1. cbn [fst snd].
  destruct (foldr (load_hit s) ∅ hits !! j); [by apply IH|].
  rewrite lookup_insert_ne by done. by apply IH.
Qed.

Lemma positions_imap (g : nat → nat) (rows : list Dict) :
  (imap (λ i row, (g i, row)) rows).*1 = g <$> seq 0 (List.length rows).
Proof.
  revert g. induction rows as [|row rows IH]; intros g; [done|].
  rewrite imap_cons, fmap_cons. cbn [List.length seq fst]. rewrite fmap_cons.
  f_equal. change (imap ((λ i row0, (g i, row0)) ∘ S) rows)
    with (imap (λ i row0, ((g ∘ S) i, row0)) rows).
  rewrite (IH (g ∘ S)). by rewrite <- fmap_S_seq, <- list_fmap_compose.
Qed.

Lemma NoDup_filter_fst (p : nat * Dict → bool) (l : list (nat * Dict)) :
  NoDup l.*1 → NoDup (List.filter p l).*1.
Proof.
  induction l as [|[i row] l IH]; intros Hnd; [done|].
  rewrite fmap_cons in Hnd. apply NoDup_cons in Hnd as [Hfresh Hnd].
  simpl. destruct (p (i, row)); [|by apply IH].
  rewrite fmap_cons. apply NoDup_cons. split; [|by apply IH].
  intros Hin. apply Hfresh.
  apply list_elem_of_fmap in Hin as ([j r] & -> & Hjr).
  apply list_elem_of_In, filter_In in Hjr as [Hjr _].
  apply list_elem_of_fmap. exists (j, r). split; [done|]. by apply list_elem_of_In.
Qed.

(** What [PATCH] answers for an athlete it finds: the payload laid over the
    loaded attributes; the store is the one it started from. *)
Lemma patch_found constraints env id (atleta_update : Dict) s i row :
  first (List.filter (λ ir : nat * Dict, filter_by_id id ir.2)
           (imap (λ i row, (i, row)) (atletas s))) = Some (i, row) →
  serve constraints env (PATCH_atleta id atleta_update) s =
    (match AtletaOut_model_validate (atleta_update ∪ load s row) with
     | Return out => {| status_code := 200; body := AtletaBody out |}
     | Raise e => error_response e
     end, s).
Proof.
  intros Hfirst.
  assert (NoDup (List.filter (λ ir : nat * Dict, filter_by_id id ir.2)
                   (imap (λ i row, (i, row)) (atletas s))).*1) as Hnd.
  { apply NoDup_filter_fst. rewrite (positions_imap (λ i, i)).
    rewrite list_fmap_id. apply NoDup_seq. }
  unfold serve, atleta_patch, mbind, M_bind, await, execute_atletas.
  cbn [db session fresh_session identity_map new deleted].
  destruct (List.filter _ _) as [|[j r] hits] eqn:Hhits; [done|].
  injection Hfirst as -> ->.
  rewrite fmap_cons in Hnd. apply NoDup_cons in Hnd as [Hfresh _].
  cbn [first head List.map fst].
  change (foldr _ ∅ ((i, row) :: hits))
    with (load_hit s (i, row) (foldr (load_hit s) ∅ hits)).
  assert (load_hit s (i, row) (foldr (load_hit s) ∅ hits) !! i
          = Some (load s row)) as Hloaded.
  { unfold load_hit at 1. cbn [fst snd].
    by rewrite (load_hits_other s hits i Hfresh), lookup_insert_eq. }
  generalize dependent (load_hit s (i, row) (foldr (load_hit s) ∅ hits)).
  intros loaded Hloaded.
  rewrite for_items_setattr. cbn [db session identity_map new deleted].
  unfold not_awaited. cbn.
  unfold atleta_response_model, attributes. cbn.
  unfold Ref. rewrite lookup_alter_eq, Hloaded. cbn.
  rewrite assign_all_union.
  by destruct (AtletaOut_model_validate _).
Qed.

(** *** What the dropped coroutines do once awaited

    The same steps as [patch] and as the [DELETE] handler, with [await]:
    the row is rewritten, respectively removed. *)

Lemma awaited_commit_writes_the_merge :
  let w := {| db := gym_with_joao; session := fresh_session |} in
  let steps : M () :=
    found ← await (execute_atletas (filter_by_id joao_id));
    match first found with
    | None => raise (atleta_not_found joao_id)
    | Some atleta =>
        setattr atleta "nome" (VStr "Jose") ;; await (commit unconstrained)
    end in
  (λ row : Dict, row !! "nome") <$> atletas (db (steps w).2)
  = [Some (VStr "Jose")].
Proof. by vm_compute. Qed.

Lemma awaited_delete_removes_the_row :
  let w := {| db := gym_with_joao; session := fresh_session |} in
  let steps : M () :=
    found ← await (execute_atletas (filter_by_id joao_id));
    match first found with
    | None => raise (atleta_not_found joao_id)
    | Some atleta =>
        await (session_delete atleta) ;; await (commit unconstrained)
    end in
  atletas (db (steps w).2) = [].
Proof. by vm_compute. Qed.

(** *** Looking athletes up, listing them *)

Lemma hits_of_lookup p s i row :
  (i, row) ∈ hits_of p s → atletas s !! i = Some row ∧ p row = true.
Proof.
  unfold hits_of. intros Hin.
  apply list_elem_of_In, filter_In in Hin as [Hin Hp].
  apply list_elem_of_In, elem_of_lookup_imap in Hin as (j & r & [= -> ->] & Hj).
  done.
Qed.

Lemma hits_of_NoDup p s : NoDup (hits_of p s).*1.
Proof.
  unfold hits_of. apply NoDup_filter_fst.
  rewrite (positions_imap (λ i, i)), list_fmap_id. apply NoDup_seq.
Qed.

Lemma hits_of_nil p s :
  (∀ row, row ∈ atletas s → p row = false) → hits_of p s = [].
Proof. intros Hno. by apply (no_hits p (λ i, i)). Qed.

Lemma hits_of_some p s :
  (∃ row, row ∈ atletas s ∧ p row = true) →
  ∃ i row rest, hits_of p s = (i, row) :: rest.
Proof.
  intros (row & Hin & Hp).
  apply list_elem_of_lookup in Hin as [i Hi].
  destruct (hits_of p s) as [|[j r] rest] eqn:Hhits; [|by eauto].
  exfalso.
  assert ((i, row) ∈ hits_of p s) as Hmem.
  { unfold hits_of. apply list_elem_of_In, filter_In. split; [|done].
    apply list_elem_of_In, elem_of_lookup_imap. by exists i, row. }
  rewrite Hhits in Hmem. by apply elem_of_nil in Hmem.
Qed.

(** What [execute_atletas] leaves in a session that was fresh. *)
Lemma execute_atletas_fresh p s :
  execute_atletas p {| db := s; session := fresh_session |} =
    (Return (hits_of p s).*1,
     {| db := s;
        session := {| new := []; identity_map := foldr (load_hit s) ∅ (hits_of p s);
                      deleted := ∅ |} |}).
Proof. done. Qed.

Lemma loaded_lookup s (hits : list (nat * Dict)) i row :
  NoDup hits.*1 → (i, row) ∈ hits →
  foldr (load_hit s) ∅ hits !! i = Some (load s row).
Proof.
  induction hits as [|[j r] hits IH]; intros Hnd Hin.
  - by apply elem_of_nil in Hin.
  - rewrite fmap_cons in Hnd. apply NoDup_cons in Hnd as [Hfresh Hnd].
    cbn [foldr]. unfold load_hit at 1. cbn [fst snd].
    apply elem_of_cons in Hin as [[= -> ->]|Hin].
    + by rewrite (load_hits_other s hits j Hfresh), lookup_insert_eq.
    + assert (i ≠ j) as Hne.
      { intros ->. apply Hfresh. apply list_elem_of_fmap. by exists (j, row). }
      specialize (IH Hnd Hin).
      destruct (foldr (load_hit s) ∅ hits !! j); [done|].
      by rewrite lookup_insert_ne.
Qed.

(** [GET] of an id whose first row is [row]. *)
Lemma get_found constraints env id s i row rest :
  hits_of (filter_by_id id) s = (i, row) :: rest →
  serve constraints env (GET_atleta id) s =
    (match AtletaOut_model_validate (load s row) with
     | Return out => {| status_code := 200; body := AtletaBody out |}
     | Raise e => error_response e
     end, s).
Proof.
  intros Hhits.
  assert (foldr (load_hit s) ∅ (hits_of (filter_by_id id) s) !! i
          = Some (load s row)) as Hloaded.
  { apply loaded_lookup; [apply hits_of_NoDup|]. rewrite Hhits. left. }
  unfold serve, atleta_get_by_id, mbind, M_bind, await.
  rewrite execute_atletas_fresh, Hhits. rewrite Hhits in Hloaded.
  cbn [fmap list_fmap first head fst].
  unfold respond, mret, M_ret, atleta_response_model, attributes.
  cbn [db session identity_map]. unfold Ref. rewrite Hloaded. cbn [default].
  by destruct (AtletaOut_model_validate _).
Qed.

(** The [DELETE] handler on an id it finds. *)
Lemma delete_found constraints env id s i row rest :
  hits_of (filter_by_id id) s = (i, row) :: rest →
  serve constraints env (DELETE_atleta id) s
  = ({| status_code := 204; body := NoContent |}, s).
Proof.
  intros Hhits.
  unfold serve, atleta_delete, mbind, M_bind, await.
  by rewrite execute_atletas_fresh, Hhits.
Qed.

(** The three handlers that look an athlete up, on an id they do not find. *)
Lemma not_found_run constraints env id s (request : Request) :
  hits_of (filter_by_id id) s = [] →
  request = GET_atleta id ∨ (∃ up, request = PATCH_atleta id up)
  ∨ request = DELETE_atleta id →
  serve constraints env request s
  = ({| status_code := 404;
        body := Detail ("Atleta não encontrado no id: " ++ uuid_str id ++ ".") |}, s).
Proof.
  intros Hhits [->|[[up ->]| ->]];
    unfold serve, atleta_get_by_id, atleta_patch, atleta_delete, mbind, M_bind, await;
    by rewrite execute_atletas_fresh, Hhits.
Qed.

(** Two computable ways to say whether an id is stored. *)
Lemma no_row_with_id (id : UUID) (rows : list Dict) :
  forallb (λ row, negb (filter_by_id id row)) rows = true →
  ∀ row : Dict, row ∈ rows → row !! "id" ≠ Some (VUuid id).
Proof.
  intros Hall row Hrow Hid.
  rewrite forallb_forall in Hall. apply list_elem_of_In, Hall in Hrow.
  by rewrite (filter_by_id_true id row Hid) in Hrow.
Qed.

Lemma some_row_with_id (id : UUID) (rows : list Dict) :
  existsb (filter_by_id id) rows = true →
  ∃ row : Dict, row ∈ rows ∧ row !! "id" = Some (VUuid id).
Proof.
  intros Hex. apply existsb_exists in Hex as (row & Hrow & Hid).
  exists row. split; [by apply list_elem_of_In|].
  unfold filter_by_id in Hid.
  destruct (row !! "id") as [[]|]; try discriminate.
  by apply bool_decide_eq_true in Hid as ->.
Qed.

Lemma delete_union_fk (up got : Dict) (k : string) :
  delete k (up ∪ got) = delete k up ∪ delete k got.
Proof.
  apply map_eq. intros j.
  rewrite lookup_delete, !lookup_union, !lookup_delete.
  by case_decide.
Qed.

Lemma validate_all_ok {A B} (validate : A → Outcome B) (f : A → B) (l : list A) :
  Forall (λ a, validate a = Return (f a)) l →
  validate_all validate l = Return (f <$> l).
Proof.
  induction 1 as [|a l Ha _ IH]; [done|].
  cbn [validate_all]. by rewrite Ha, IH.
Qed.

Lemma centro_validate_ok (c : CentroTreinamentoModel) :
  centro_row_valid c = true →
  CentroTreinamentoOut_model_validate c = Return (centro_representation c).
Proof.
  unfold centro_row_valid, CentroTreinamentoOut_model_validate,
    CentroTreinamentoOut_init. by intros ->.
Qed.

Lemma first_filter_find {A} (p : A → bool) (l : list A) :
  first (List.filter p l) = List.find p l.
Proof.
  induction l as [|x l IH]; [done|]. simpl. by destruct (p x).
Qed.

Lemma post_atleta_store constraints env atleta_in s :
  (serve constraints env (POST_atleta atleta_in) s).2 = s
  ∨ ∃ row, (serve constraints env (POST_atleta atleta_in) s).2 = with_atleta s row.
Proof.
  destruct (first (List.filter (λ c, bool_decide (categoria_nome c
               = categoria_in_nome (categoria atleta_in))) (categorias s)))
    as [cat|] eqn:Hcat.
  2:{ left. unfold serve, atleta_post, mbind, M_bind, await, execute_categorias.
      cbn. by rewrite Hcat. }
  destruct (first (List.filter (λ c, bool_decide (centro_nome c
               = atleta_centro_nome (centro_treinamento atleta_in)))
              (centros_treinamento s))) as [centro|] eqn:Hcentro.
  2:{ left. unfold serve, atleta_post, mbind, M_bind, await, execute_categorias,
        execute_centros_treinamento.
      cbn. rewrite Hcat; cbn. by rewrite Hcentro. }
  rewrite (post_found _ _ _ _ _ _ Hcat Hcentro).
  destruct (campos atleta_in !! "id"); [by left|].
  destruct (campos atleta_in !! "create_at"); [by left|].
  cbn. destruct (constraints s _); [|by left].
  right. by eexists.
Qed.

(** What a request can do to the table of training centres. *)
Lemma serve_centros_cases constraints env request s :
  centros_treinamento (serve constraints env request s).2 = centros_treinamento s
  ∨ ∃ cin,
      request = POST_centro_treinamento cin
      ∧ is_uuid4 (uuid4 env) && CentroTreinamentoIn_valid cin = true
      ∧ (serve constraints env request s).2 = with_centro s (centro_out env cin).
Proof.
  destruct request as [atleta_in| | | | |cin| | |cin];
    try (left; by rewrite serve_keeps_store).
  - left. by destruct (post_atleta_store constraints env atleta_in s) as [->|[row ->]].
  - rewrite post_centro_run.
    destruct (is_uuid4 (uuid4 env) && CentroTreinamentoIn_valid cin) eqn:Hok;
      [|by left].
    destruct (constraints s _); [|by left].
    right. by exists cin.
  - left. rewrite post_categoria_run. cbn. by destruct (constraints s _).
Qed.

Lemma centro_out_row_valid env cin pk :
  is_uuid4 (uuid4 env) && CentroTreinamentoIn_valid cin = true →
  centro_row_valid
    {| centro_pk_id := pk; centro_id := out_id (centro_out env cin);
       centro_nome := out_nome (centro_out env cin);
       centro_endereco := out_endereco (centro_out env cin);
       centro_proprietario := out_proprietario (centro_out env cin) |} = true.
Proof. unfold centro_row_valid. by destruct cin. Qed.

Lemma serve_all_centros_valid constraints history s :
  Forall (λ c, centro_row_valid c = true) (centros_treinamento s) →
  Forall (λ c, centro_row_valid c = true)
         (centros_treinamento (serve_all constraints history s)).
Proof.
  revert s. induction history as [|[env request] rest IH]; intros s Hs; [done|].
  cbn [serve_all]. apply IH.
  destruct (serve_centros_cases constraints env request s)
    as [->|(cin & _ & Hok & ->)]; [done|].
  cbn [with_centro centros_treinamento]. apply Forall_app. split; [done|].
  apply Forall_singleton. by apply centro_out_row_valid.
Qed.

Lemma first_hit_find (p : Dict → bool) (g : nat → nat) (l : list Dict) :
  snd <$> first (List.filter (λ ir : nat * Dict, p ir.2)
                   (imap (λ i row, (g i, row)) l))
  = List.find p l.
Proof.
  revert g. induction l as [|row l IH]; intros g; [done|].
  rewrite imap_cons. cbn [List.filter List.find snd].
  destruct (p row); [done|]. apply (IH (g ∘ S)).
Qed.

Lemma hits_of_find p s i row rest :
  hits_of p s = (i, row) :: rest → List.find p (atletas s) = Some row.
Proof.
  intros Hhits. rewrite <- (first_hit_find p (λ i, i)).
  fold (hits_of p s). by rewrite Hhits.
Qed.

Lemma referenced_row {A} (pk_of : A → option Z) (table : list A) (fk : option Value) :
  NoDup (pk_of <$> table) → refers_to (pk_of <$> table) fk →
  ∃ (p : Z) (a : A),
    fk = Some (VInt p) ∧ a ∈ table ∧ pk_of a = Some p
    ∧ List.find (λ c, bool_decide (pk_of c = Some p)) table = Some a.
Proof.
  intros Hnd (p & -> & Hin).
  apply list_elem_of_fmap in Hin as (a & Hp & Hin).
  exists p, a. repeat split; try done. by apply find_unique.
Qed.

(** In a store that keeps the invariant, a loaded athlete has both its
    relationships. *)
Lemma load_ok (s : Store) (row : Dict) :
  store_ok s → row ∈ atletas s →
  ∃ cat centro,
    cat ∈ categorias s ∧ centro ∈ centros_treinamento s
    ∧ row !! "categoria_id" = Some (pk_value (categoria_pk_id cat))
    ∧ row !! "centro_treinamento_id" = Some (pk_value (centro_pk_id centro))
    ∧ load s row =
        <["centro_treinamento" := VDict {["nome" := VStr (centro_nome centro)]}]>
          (<["categoria" := VDict {["nome" := VStr (categoria_nome cat)]}]> row).
Proof.
  intros ([Hcat_nd _] & [Hcentro_nd _] & Hatl) Hrow.
  rewrite Forall_forall in Hatl. destruct (Hatl row Hrow) as [Hc Ht].
  destruct (referenced_row _ _ _ Hcat_nd Hc) as (p & cat & Hp & Hcat & Hpk & Hfind).
  destruct (referenced_row _ _ _ Hcentro_nd Ht)
    as (q & centro & Hq & Hcentro & Hqk & Hfind').
  exists cat, centro. rewrite Hpk, Hqk. repeat split; try done.
  unfold load. rewrite Hp, Hq. cbn [related_categoria related_centro_treinamento].
  by rewrite Hfind, Hfind'.
Qed.

Lemma validate_load_ok (s : Store) (row : Dict) :
  store_ok s → row ∈ atletas s →
  AtletaOut_model_validate (load s row) = Return (representation s row).
Proof.
  intros Hok Hrow.
  destruct (load_ok s row Hok Hrow) as (cat & centro & _ & _ & _ & _ & Hload).
  unfold representation, AtletaOut_model_validate. rewrite Hload.
  by rewrite lookup_insert_ne, !lookup_insert_eq.
Qed.

Lemma filter_all {A} (l : list A) : List.filter (λ _, true) l = l.
Proof. induction l as [|a l IH]; [done|]. simpl. by rewrite IH. Qed.

Lemma hits_of_all (s : Store) :
  hits_of (λ _, true) s = imap (λ i row, (i, row)) (atletas s).
Proof. unfold hits_of. apply (filter_all (imap _ _)). Qed.

Lemma imap_pair_snd (g : nat → nat) (l : list Dict) :
  (imap (λ i row, (g i, row)) l).*2 = l.
Proof.
  revert g. induction l as [|row l IH]; intros g; [done|].
  rewrite imap_cons, fmap_cons. cbn [snd]. f_equal. apply (IH (g ∘ S)).
Qed.

Lemma validate_all_fmap {A B C} (v1 : B → Outcome C) (v2 : A → Outcome C)
    (f : A → B) (l : list A) :
  (∀ a, a ∈ l → v1 (f a) = v2 a) →
  validate_all v1 (f <$> l) = validate_all v2 l.
Proof.
  induction l as [|a l IH]; intros Hext; [done|].
  rewrite fmap_cons. cbn [validate_all].
  rewrite (Hext a) by left. rewrite IH; [done|].
  intros b Hb. apply Hext. by right.
Qed.

(** The whole of the athlete [get_all] on a store that keeps the invariant. *)
Lemma atleta_list_run constraints env (limit offset : nat) s :
  store_ok s →
  serve constraints env (GET_atletas limit offset) s
  = ({| status_code := 200;
        body := AtletaPageBody
                  {| items := take limit (drop offset (representation s <$> atletas s));
                     total := List.length (atletas s);
                     page_limit := limit; page_offset := offset |} |}, s).
Proof.
  intros Hok.
  unfold serve, atleta_get_all, mbind, M_bind, await.
  rewrite execute_atletas_fresh, hits_of_all.
  unfold model_validate_each.
  rewrite (validate_all_fmap _
             (λ ir : nat * Dict, AtletaOut_model_validate (load s ir.2))).
  2:{ intros [i row] Hin. unfold attributes. cbn [session identity_map fst snd].
      unfold Ref. rewrite (loaded_lookup s _ i row); [done| |done].
      rewrite <- hits_of_all. apply hits_of_NoDup. }
  rewrite (validate_all_ok _ (λ ir : nat * Dict, representation s ir.2)).
  2:{ apply Forall_forall. intros [i row] Hin. cbn [snd].
      apply validate_load_ok; [done|].
      apply elem_of_lookup_imap in Hin as (j & r & [= -> ->] & Hj).
      by eapply list_elem_of_lookup_2. }
  unfold respond, mret, M_ret, paginate. cbn [db].
  change (λ ir : nat * Dict, representation s ir.2)
    with (representation s ∘ (snd : nat * Dict → Dict)).
  rewrite (list_fmap_compose (snd : nat * Dict → Dict) (representation s)).
  rewrite (imap_pair_snd (λ i, i)).
  by rewrite length_fmap.
Qed.

(** ** The specification, property by property *)

(** C1. A partial update is to change the fields of its payload, leave the
    others as they were, persist the merged record and return it. The
    handler does merge and return, but it drops the coroutine of
    [db_session.commit()]: the athlete Joao is patched to Jose, the answer
    is 200 with [nome = "Jose"], the store is the store it started from,
    and the next [GET] still answers [nome = "Joao"]. *)
Lemma patch_is_not_persisted :
  (∃ row : Dict, row ∈ atletas gym_with_joao ∧ row !! "id" = Some (VUuid joao_id)
                 ∧ row !! "nome" = Some (VStr "Joao"))
  ∧ ∃ patched stored,
      serve unconstrained env_d (PATCH_atleta joao_id {[ "nome" := VStr "Jose" ]})
            gym_with_joao
        = ({| status_code := 200; body := AtletaBody patched |}, gym_with_joao)
      ∧ patched !! "nome" = Some (VStr "Jose")
      ∧ serve unconstrained env_d (GET_atleta joao_id) gym_with_joao
        = ({| status_code := 200; body := AtletaBody stored |}, gym_with_joao)
      ∧ stored !! "nome" = Some (VStr "Joao").
Proof.
  split.
  - eexists. split; [vm_compute; left|]. by vm_compute.
  - eexists _, _. split; [vm_compute; reflexivity|].
    split; [by vm_compute|]. split; [vm_compute; reflexivity|]. by vm_compute.
Qed.

(** C2. Creating an athlete whose category name matches no stored category
    answers 400 with a message naming that category, whatever the
    training-centre name of the request; nothing is written. *)
Theorem post_unknown_categoria constraints env atleta_in s :
  (∀ c, c ∈ categorias s → categoria_nome c ≠ categoria_in_nome (categoria atleta_in)) →
  ∃ detail,
    serve constraints env (POST_atleta atleta_in) s
      = ({| status_code := 400; body := Detail detail |}, s)
    ∧ detail = "A categoria '" ++ categoria_in_nome (categoria atleta_in)
                 ++ "' não foi encontrada."
    ∧ contains (categoria_in_nome (categoria atleta_in)) detail.
Proof.
  intros Hno. eexists. split; [|split; [reflexivity|apply contains_middle]].
  cbn. unfold atleta_post, mbind, M_bind, await, execute_categorias. cbn.
  rewrite find_none_filter; [done|].
  intros c Hc. apply bool_decide_eq_false. by apply Hno.
Qed.

(** In the small gym nobody created the category Elite that Pedro names. *)
Lemma post_unknown_categoria_witness :
  ∃ detail,
    serve unconstrained env_c (POST_atleta pedro) gym
      = ({| status_code := 400; body := Detail detail |}, gym)
    ∧ detail = "A categoria 'Elite' não foi encontrada."
    ∧ contains "Elite" detail.
Proof.
  apply (post_unknown_categoria unconstrained env_c pedro gym).
  intros c Hc. vm_compute in Hc.
  apply list_elem_of_singleton in Hc as ->. discriminate.
Defined.

(** C3. Creating an athlete whose category name matches a stored category
    and whose training-centre name matches no stored training centre
    answers 400 with a message naming that centre, and inserts no athlete
    row. *)
Theorem post_unknown_centro constraints env atleta_in s :
  (∃ c, c ∈ categorias s
        ∧ categoria_nome c = categoria_in_nome (categoria atleta_in)) →
  (∀ c, c ∈ centros_treinamento s →
        centro_nome c ≠ atleta_centro_nome (centro_treinamento atleta_in)) →
  ∃ detail,
    serve constraints env (POST_atleta atleta_in) s
      = ({| status_code := 400; body := Detail detail |}, s)
    ∧ detail = "O centro de treinamento '"
                 ++ atleta_centro_nome (centro_treinamento atleta_in)
                 ++ "' não foi encontrado."
    ∧ contains (atleta_centro_nome (centro_treinamento atleta_in)) detail
    ∧ atletas (serve constraints env (POST_atleta atleta_in) s).2 = atletas s.
Proof.
  intros (c & Hc & Hname) Hno.
  destruct (first_filter_some
              (λ c, bool_decide (categoria_nome c
                                 = categoria_in_nome (categoria atleta_in)))
              (categorias s)) as (cat & Hcat & _ & _).
  { exists c. split; [done|]. by apply bool_decide_eq_true. }
  assert (serve constraints env (POST_atleta atleta_in) s
          = ({| status_code := 400;
                body := Detail ("O centro de treinamento '"
                                ++ atleta_centro_nome (centro_treinamento atleta_in)
                                ++ "' não foi encontrado.") |}, s)) as Hrun.
  { unfold serve, atleta_post, mbind, M_bind, await, execute_categorias,
      execute_centros_treinamento; cbn.
    rewrite Hcat; cbn. rewrite find_none_filter; [done|].
    intros t Ht. apply bool_decide_eq_false. by apply Hno. }
  eexists. split; [exact Hrun|]. split; [done|]. split.
  - apply (contains_middle "O centro de treinamento '").
  - by rewrite Hrun.
Qed.

(** In the small gym the category of Ana exists, her training centre does
    not. *)
Lemma post_unknown_centro_witness :
  ∃ detail,
    serve unconstrained env_c (POST_atleta ana) gym
      = ({| status_code := 400; body := Detail detail |}, gym)
    ∧ detail = "O centro de treinamento 'CT Queen' não foi encontrado."
    ∧ contains "CT Queen" detail
    ∧ atletas (serve unconstrained env_c (POST_atleta ana) gym).2 = atletas gym.
Proof.
  apply (post_unknown_centro unconstrained env_c ana gym).
  - eexists. split; [vm_compute; left|]. reflexivity.
  - intros c Hc. vm_compute in Hc.
    apply list_elem_of_singleton in Hc as ->. discriminate.
Defined.

(** C4, as stated, fails: with a unique [cpf] column, a second athlete of
    the same [cpf] names a stored category and a stored training centre
    and is answered 500, not 201. *)
Lemma post_created_counterexample :
  ¬ (∀ (constraints : Store → Entity → bool) env atleta_in s,
       (∃ c, c ∈ categorias s
             ∧ categoria_nome c = categoria_in_nome (categoria atleta_in)) →
       (∃ c, c ∈ centros_treinamento s
             ∧ centro_nome c = atleta_centro_nome (centro_treinamento atleta_in)) →
       status_code (serve constraints env (POST_atleta atleta_in) s).1 = 201).
Proof.
  intros H.
  specialize (H (unique_column "cpf") env_d maria gym_with_joao).
  assert (status_code (serve (unique_column "cpf") env_d (POST_atleta maria)
                         gym_with_joao).1 = 500) as H500 by (vm_compute; reflexivity).
  rewrite H in H500; [discriminate| |].
  - eexists. split; [vm_compute; left|]. reflexivity.
  - eexists. split; [vm_compute; left|]. reflexivity.
Qed.

(** C4, amended. When both names match stored rows, the athlete [post]
    answers 201 exactly when the representation can be built (the payload
    carries no [id] and no [create_at] of its own) and the store accepts
    the row; otherwise it answers the generic 500 and writes nothing. The
    representation answered carries the version 4 UUID and the naive UTC
    timestamp the server drew, not values of the payload; and no request
    gives a stored athlete another [id]: the ids stored after a request are
    those stored before it, but for the one the server generates for a
    creation. *)
Theorem post_created constraints env atleta_in s :
  (∃ c, c ∈ categorias s
        ∧ categoria_nome c = categoria_in_nome (categoria atleta_in)) →
  (∃ c, c ∈ centros_treinamento s
        ∧ centro_nome c = atleta_centro_nome (centro_treinamento atleta_in)) →
  ∃ cat centro,
    cat ∈ categorias s ∧ centro ∈ centros_treinamento s ∧
    let out :=
      <["id" := VUuid (uuid4 env)]>
        (<["create_at" := VDatetime {| wall := clock env; tzinfo := None |}]>
           (AtletaIn_model_dump atleta_in)) in
    let row := atleta_model_of out cat centro in
    let built :=
      negb (bool_decide (is_Some (campos atleta_in !! "id")))
      && negb (bool_decide (is_Some (campos atleta_in !! "create_at"))) in
    serve constraints env (POST_atleta atleta_in) s =
      (if built && constraints s (EAtleta row)
       then ({| status_code := 201; body := AtletaBody out |}, with_atleta s row)
       else ({| status_code := 500;
                body := Detail "Ocorreu um erro ao inserir os dados no banco." |}, s))
    ∧ out !! "id" = Some (VUuid (uuid4 env))
    ∧ is_uuid4 (uuid4 env) = true
    ∧ out !! "create_at"
        = Some (VDatetime {| wall := clock env; tzinfo := None |})
    ∧ ∀ s0 env' request',
        ids (serve constraints env' request' s0).2
          `sublist_of` (ids s0 ++ [Some (VUuid (uuid4 env'))])%list.
Proof.
  intros (c & Hc & Hcn) (t & Ht & Htn).
  destruct (first_filter_some
              (λ c, bool_decide (categoria_nome c
                                 = categoria_in_nome (categoria atleta_in)))
              (categorias s)) as (cat & Hcat & Hcat_in & _).
  { exists c. split; [done|]. by apply bool_decide_eq_true. }
  destruct (first_filter_some
              (λ c, bool_decide (centro_nome c
                                 = atleta_centro_nome (centro_treinamento atleta_in)))
              (centros_treinamento s)) as (centro & Hcentro & Hcentro_in & _).
  { exists t. split; [done|]. by apply bool_decide_eq_true. }
  exists cat, centro. split; [done|]. split; [done|]. cbn zeta.
  split; [|split; [|split; [|split]]].
  - rewrite (post_found _ _ _ _ _ _ Hcat Hcentro).
    destruct (campos atleta_in !! "id") as [v|].
    { rewrite bool_decide_true by by eexists. done. }
    destruct (campos atleta_in !! "create_at") as [v|].
    { rewrite (bool_decide_true (is_Some (Some v))) by by eexists.
      by rewrite andb_false_r. }
    rewrite !bool_decide_false by by intros [? ?].
    cbn. by destruct (constraints s _).
  - by rewrite lookup_insert_eq.
  - apply uuid4_is_uuid4.
  - by rewrite lookup_insert_ne, lookup_insert_eq.
  - intros. apply serve_ids.
Qed.

(** In the small gym, with nothing to refuse the row, Lia is created. *)
Lemma post_created_witness :
  ∃ created : Dict,
    (serve unconstrained env_d (POST_atleta livia) gym_with_joao).1
      = {| status_code := 201; body := AtletaBody created |}
    ∧ created !! "id" = Some (VUuid (uuid4 env_d))
    ∧ created !! "create_at"
        = Some (VDatetime {| wall := 1700000000000003; tzinfo := None |}).
Proof.
  destruct (post_created unconstrained env_d livia gym_with_joao)
    as (cat & centro & _ & _ & Hrun & Hid & _ & Hat & _).
  - eexists. split; [vm_compute; left|]. reflexivity.
  - eexists. split; [vm_compute; left|]. reflexivity.
  - eexists. rewrite Hrun. split; [reflexivity|]. split; [exact Hid|exact Hat].
Defined.

(** C5. In a store reached by serving requests, when an athlete whose
    payload keeps to its own fields is created (201) under an id no stored
    athlete carries, a following [GET] of that id answers 200 with the very
    representation the creation returned. *)
Theorem create_then_get constraints history env env' atleta_in out s' :
  let s := serve_all constraints history empty_store in
  campos atleta_in !! "categoria_id" = None →
  campos atleta_in !! "centro_treinamento_id" = None →
  (∀ row : Dict, row ∈ atletas s → row !! "id" ≠ Some (VUuid (uuid4 env))) →
  serve constraints env (POST_atleta atleta_in) s
    = ({| status_code := 201; body := AtletaBody out |}, s') →
  out !! "id" = Some (VUuid (uuid4 env))
  ∧ serve constraints env' (GET_atleta (uuid4 env)) s'
      = ({| status_code := 200; body := AtletaBody out |}, s').
Proof.
  intros s Hc Ht Hfresh Hpost.
  assert (store_ok s) as Hok by apply serve_all_store_ok, empty_store_ok.
  apply created_inv in Hpost as (cat & centro & Hcat & Hcentro & [= ->] & ->).
  apply first_filter_elem in Hcat as [Hcat Hcn].
  apply first_filter_elem in Hcentro as [Hcentro Htn].
  apply bool_decide_eq_true in Hcn, Htn.
  split; [unfold created_out; by rewrite lookup_insert_eq|].
  rewrite get_last_row; [|done|].
  2:{ unfold atleta_model_of, AtletaOut_model_dump_exclude, created_out.
      by rewrite !lookup_insert_ne, !lookup_delete_ne, lookup_insert_eq. }
  rewrite load_created by done.
  unfold AtletaOut_model_validate.
  rewrite lookup_insert_ne, lookup_insert_eq, lookup_insert_eq by done.
  by rewrite created_round_trip.
Qed.

(** Lia is created in the small gym and read back. *)
Lemma create_then_get_witness :
  ∃ created : Dict,
    created !! "nome" = Some (VStr "Lia")
    ∧ created !! "id" = Some (VUuid (uuid4 env_d))
    ∧ (serve unconstrained env_a (GET_atleta (uuid4 env_d))
         (serve unconstrained env_d (POST_atleta livia) gym_with_joao).2).1
      = {| status_code := 200; body := AtletaBody created |}.
Proof.
  exists (created_out env_d livia). split; [by vm_compute|].
  destruct (create_then_get unconstrained (opening ++ [(env_c, POST_atleta joao)])
              env_d env_a livia (created_out env_d livia)
              (serve unconstrained env_d (POST_atleta livia) gym_with_joao).2)
    as [Hid Hget].
  - reflexivity.
  - reflexivity.
  - intros row Hrow. vm_compute in Hrow.
    apply list_elem_of_singleton in Hrow as ->. by vm_compute.
  - vm_compute. reflexivity.
  - split; [exact Hid|]. by rewrite Hget.
Defined.

(** C6. Deleting a stored athlete is to answer 204 and remove the row, so
    that a [GET] of the id then answers 404. The handler answers 204, but
    it drops the coroutines of [db_session.delete(atleta)] and
    [db_session.commit()]: the store is unchanged and the [GET] answers
    200. *)
Lemma delete_keeps_the_row :
  (∃ row : Dict, row ∈ atletas gym_with_joao ∧ row !! "id" = Some (VUuid joao_id))
  ∧ serve unconstrained env_d (DELETE_atleta joao_id) gym_with_joao
      = ({| status_code := 204; body := NoContent |}, gym_with_joao)
  ∧ status_code
      (serve unconstrained env_d (GET_atleta joao_id)
         (serve unconstrained env_d (DELETE_atleta joao_id) gym_with_joao).2).1
    = 200.
Proof.
  split; [|split].
  - eexists. split; [vm_compute; left|]. by vm_compute.
  - vm_compute. reflexivity.
  - vm_compute. reflexivity.
Qed.

(** C7. In every store reached from the empty one by serving requests,
    each athlete row carries two foreign keys that are not null and are the
    primary key of exactly one category and of exactly one training
    centre. *)
Theorem reachable_foreign_keys_valid constraints (history : list (Env * Request)) :
  let s := serve_all constraints history empty_store in
  Forall (foreign_keys_valid s) (atletas s).
Proof.
  apply store_ok_foreign_keys, serve_all_store_ok, empty_store_ok.
Qed.

(** The store reached in the small gym does hold an athlete. *)
Lemma gym_with_joao_atletas : List.length (atletas gym_with_joao) = 1.
Proof. by vm_compute. Qed.

(** C8. A request that is answered with an error (a status of 400 or
    above) leaves the store exactly as it found it: no write operation
    applies a part of its change. *)
Theorem failed_request_keeps_store constraints env request s :
  (400 ≤ status_code (serve constraints env request s).1)%nat →
  (serve constraints env request s).2 = s.
Proof.
  intros Hfail.
  destruct (serve_cases constraints env request s) as [H|[H _]]; [done|].
  rewrite H in Hfail. lia.
Qed.

(** Maria, refused for her [cpf], leaves the small gym as it was. *)
Lemma failed_request_keeps_store_witness :
  (serve (unique_column "cpf") env_d (POST_atleta maria) gym_with_joao).2
  = gym_with_joao.
Proof.
  apply (failed_request_keeps_store (unique_column "cpf") env_d (POST_atleta maria)
           gym_with_joao).
  vm_compute. lia.
Defined.

(** C9. For an id that no stored athlete (respectively training centre)
    carries, [GET] by id answers 404 with a message containing that id. *)
Theorem get_by_id_unknown constraints env (id : UUID) s :
  ((∀ row : Dict, row ∈ atletas s → row !! "id" ≠ Some (VUuid id)) →
   ∃ detail,
     serve constraints env (GET_atleta id) s
       = ({| status_code := 404; body := Detail detail |}, s)
     ∧ detail = "Atleta não encontrado no id: " ++ uuid_str id ++ "."
     ∧ contains (uuid_str id) detail)
  ∧
  ((∀ c, c ∈ centros_treinamento s → centro_id c ≠ id) →
   ∃ detail,
     serve constraints env (GET_centro_treinamento id) s
       = ({| status_code := 404; body := Detail detail |}, s)
     ∧ detail = "Centro de Treinamento não encontrado no id: " ++ uuid_str id ++ "."
     ∧ contains (uuid_str id) detail).
Proof.
  split; intros Hno; eexists;
    (split; [|split; [reflexivity|apply contains_middle]]).
  - unfold serve, atleta_get_by_id, mbind, M_bind, await, execute_atletas; cbn.
    rewrite (no_hits (filter_by_id id) (λ i, i)); [done|].
    intros row Hrow. by apply filter_by_id_false, Hno.
  - unfold serve, centro_treinamento_get_by_id, mbind, M_bind, await,
      execute_centros_treinamento; cbn.
    rewrite find_none_filter; [done|].
    intros c Hc. apply bool_decide_eq_false. by apply Hno.
Qed.

(** No athlete and no training centre of the small gym has the id 5. *)
Lemma get_by_id_unknown_witness :
  (∃ detail,
     serve unconstrained env_d (GET_atleta 5%N) gym_with_joao
       = ({| status_code := 404; body := Detail detail |}, gym_with_joao)
     ∧ detail = "Atleta não encontrado no id: 00000000-0000-0000-0000-000000000005."
     ∧ contains "00000000-0000-0000-0000-000000000005" detail)
  ∧ (∃ detail,
       serve unconstrained env_d (GET_centro_treinamento 5%N) gym_with_joao
         = ({| status_code := 404; body := Detail detail |}, gym_with_joao)
       ∧ detail = "Centro de Treinamento não encontrado no id: "
                    ++ "00000000-0000-0000-0000-000000000005."
       ∧ contains "00000000-0000-0000-0000-000000000005" detail).
Proof.
  destruct (get_by_id_unknown unconstrained env_d 5%N gym_with_joao)
    as [Hatleta Hcentro].
  split.
  - apply Hatleta. intros row Hrow. vm_compute in Hrow.
    apply list_elem_of_singleton in Hrow as ->. by vm_compute.
  - apply Hcentro. intros c Hc. vm_compute in Hc.
    apply list_elem_of_singleton in Hc as ->. by vm_compute.
Defined.

(** C10. The training-centre [post] answers, when the store accepts the
    row, 201 with the [nome], [endereco] and [proprietario] of the input and
    a version 4 UUID the server drew; that representation is built from the
    input and the draw alone, the stored row (with its own primary key)
    plays no part in it. When the store refuses the row the exception is
    not caught and the answer is a plain 500. *)
Theorem post_centro_echoes_input constraints env cin s :
  CentroTreinamentoIn_valid cin = true →
  let out := {| out_id := uuid4 env; out_nome := nome cin;
                out_endereco := endereco cin;
                out_proprietario := proprietario cin |} in
  is_uuid4 (out_id out) = true
  ∧ serve constraints env (POST_centro_treinamento cin) s =
      if constraints s (ECentroTreinamento (CentroTreinamentoModel_init out))
      then ({| status_code := 201; body := CentroTreinamentoBody out |},
            with_centro s out)
      else ({| status_code := 500; body := Detail "Internal Server Error" |}, s).
Proof.
  intros Hvalid out. split; [apply uuid4_is_uuid4|].
  rewrite post_centro_run, Hvalid.
  unfold uuid4. by rewrite uuid4_is_uuid4.
Qed.

(** The creation of CT King, on the empty store. *)
Lemma post_centro_echoes_input_witness :
  is_uuid4 (uuid4 env_b) = true
  ∧ (serve unconstrained env_b (POST_centro_treinamento ct_king) empty_store).1
    = {| status_code := 201;
         body := CentroTreinamentoBody
                   {| out_id := uuid4 env_b; out_nome := "CT King";
                      out_endereco := "Rua X, Q02"; out_proprietario := "Marcos" |} |}.
Proof.
  destruct (post_centro_echoes_input unconstrained env_b ct_king empty_store)
    as [Hid Hrun]; [reflexivity|].
  split; [exact Hid|]. rewrite Hrun. reflexivity.
Defined.

(** ** Further properties of the handlers *)

(** X1. [PATCH] of an id that no stored athlete carries answers 404 with a
    message containing that id, whatever the payload, and writes nothing. *)
Theorem patch_unknown constraints env (id : UUID) (atleta_update : Dict) s :
  (∀ row : Dict, row ∈ atletas s → row !! "id" ≠ Some (VUuid id)) →
  ∃ detail,
    serve constraints env (PATCH_atleta id atleta_update) s
      = ({| status_code := 404; body := Detail detail |}, s)
    ∧ detail = "Atleta não encontrado no id: " ++ uuid_str id ++ "."
    ∧ contains (uuid_str id) detail.
Proof.
  intros Hno. eexists. split; [|split; [reflexivity|apply contains_middle]].
  apply not_found_run; [|right; left; by eexists].
  apply hits_of_nil. intros row Hrow. by apply filter_by_id_false, Hno.
Qed.

(** No athlete of the small gym has the id 5. *)
Lemma patch_unknown_witness :
  ∃ detail,
    serve unconstrained env_d (PATCH_atleta 5%N {[ "nome" := VStr "Jose" ]}) gym_with_joao
      = ({| status_code := 404; body := Detail detail |}, gym_with_joao)
    ∧ detail = "Atleta não encontrado no id: 00000000-0000-0000-0000-000000000005."
    ∧ contains "00000000-0000-0000-0000-000000000005" detail.
Proof.
  apply (patch_unknown unconstrained env_d 5%N {[ "nome" := VStr "Jose" ]} gym_with_joao).
  apply no_row_with_id. vm_compute. reflexivity.
Defined.

(** X2. [DELETE] of an id that no stored athlete carries answers 404 with a
    message containing that id, and writes nothing. *)
Theorem delete_unknown constraints env (id : UUID) s :
  (∀ row : Dict, row ∈ atletas s → row !! "id" ≠ Some (VUuid id)) →
  ∃ detail,
    serve constraints env (DELETE_atleta id) s
      = ({| status_code := 404; body := Detail detail |}, s)
    ∧ detail = "Atleta não encontrado no id: " ++ uuid_str id ++ "."
    ∧ contains (uuid_str id) detail.
Proof.
  intros Hno. eexists. split; [|split; [reflexivity|apply contains_middle]].
  apply not_found_run; [|by right; right].
  apply hits_of_nil. intros row Hrow. by apply filter_by_id_false, Hno.
Qed.

(** No athlete of the small gym has the id 5. *)
Lemma delete_unknown_witness :
  ∃ detail,
    serve unconstrained env_d (DELETE_atleta 5%N) gym_with_joao
      = ({| status_code := 404; body := Detail detail |}, gym_with_joao)
    ∧ detail = "Atleta não encontrado no id: 00000000-0000-0000-0000-000000000005."
    ∧ contains "00000000-0000-0000-0000-000000000005" detail.
Proof.
  apply (delete_unknown unconstrained env_d 5%N gym_with_joao).
  apply no_row_with_id. vm_compute. reflexivity.
Defined.

(** X3. Where [GET] answers an athlete, [PATCH] with a payload that leaves
    the two nested schemas alone answers 200 with that representation
    overlaid by the payload: a field the payload does not set is as [GET]
    shows it, a field it sets has the payload's value (the two foreign-key
    columns are never shown). The store is the one it started from. *)
Theorem patch_answers_merge constraints env (id : UUID) (atleta_update got : Dict) s :
  serve constraints env (GET_atleta id) s
    = ({| status_code := 200; body := AtletaBody got |}, s) →
  atleta_update !! "categoria" = None →
  atleta_update !! "centro_treinamento" = None →
  ∃ patched : Dict,
    serve constraints env (PATCH_atleta id atleta_update) s
      = ({| status_code := 200; body := AtletaBody patched |}, s)
    ∧ (∀ k, atleta_update !! k = None → patched !! k = got !! k)
    ∧ (∀ k v, atleta_update !! k = Some v →
              k ≠ "categoria_id" → k ≠ "centro_treinamento_id" →
              patched !! k = Some v).
Proof.
  intros Hget Hcat Hcentro.
  destruct (hits_of (filter_by_id id) s) as [|[i row] rest] eqn:Hhits.
  { rewrite (not_found_run constraints env id s (GET_atleta id)) in Hget; [|done|by left].
    discriminate. }
  rewrite (get_found constraints env id s i row rest Hhits) in Hget.
  rewrite (patch_found constraints env id atleta_update s i row)
    by (unfold hits_of in Hhits; by rewrite Hhits).
  unfold AtletaOut_model_validate in *.
  rewrite !lookup_union, Hcat, Hcentro, !(left_id_L None _).
  destruct (load s row !! "categoria") as [[]|];
    try (cbn in Hget; discriminate Hget).
  destruct (load s row !! "centro_treinamento") as [[]|];
    try (cbn in Hget; discriminate Hget).
  injection Hget as <-.
  eexists. split; [reflexivity|]. split.
  - intros k Hk.
    rewrite !lookup_delete, lookup_union, Hk, (left_id_L None _). done.
  - intros k v Hk Hne1 Hne2.
    rewrite !lookup_delete_ne by done. by rewrite lookup_union, Hk, union_Some_l.
Qed.

(** Joao patched to Jose: the name is the new one, the [cpf] is his. *)
Lemma patch_answers_merge_witness :
  ∃ patched : Dict,
    serve unconstrained env_d (PATCH_atleta joao_id {[ "nome" := VStr "Jose" ]})
          gym_with_joao
      = ({| status_code := 200; body := AtletaBody patched |}, gym_with_joao)
    ∧ patched !! "nome" = Some (VStr "Jose")
    ∧ patched !! "cpf" = Some (VStr "12345678900").
Proof.
  destruct (patch_answers_merge unconstrained env_d joao_id {[ "nome" := VStr "Jose" ]}
              (match body (serve unconstrained env_d (GET_atleta joao_id)
                             gym_with_joao).1 with
               | AtletaBody got => got
               | _ => ∅
               end)
              gym_with_joao) as (patched & Hrun & Hsame & Hnew).
  - vm_compute. reflexivity.
  - reflexivity.
  - reflexivity.
  - exists patched. split; [exact Hrun|]. split.
    + by apply Hnew.
    + rewrite Hsame by reflexivity. by vm_compute.
Defined.

(** X4. [PATCH] with an empty payload answers exactly what [GET] answers
    for the same id, found or not. *)
Theorem patch_nothing_is_get constraints env (id : UUID) s :
  serve constraints env (PATCH_atleta id ∅) s = serve constraints env (GET_atleta id) s.
Proof.
  destruct (hits_of (filter_by_id id) s) as [|[i row] rest] eqn:Hhits.
  - rewrite (not_found_run constraints env id s (GET_atleta id)) by (done || by left).
    apply not_found_run; [done|]. right; left. by eexists.
  - rewrite (get_found constraints env id s i row rest Hhits).
    rewrite (patch_found constraints env id ∅ s i row)
      by (unfold hits_of in Hhits; by rewrite Hhits).
    by rewrite (left_id_L ∅ (∪)).
Qed.

(** X5. [DELETE] of an id that a stored athlete carries answers 204 with no
    body; as the handler awaits neither [delete] nor [commit], the store is
    the one it started from. *)
Theorem delete_stored constraints env (id : UUID) s :
  (∃ row : Dict, row ∈ atletas s ∧ row !! "id" = Some (VUuid id)) →
  serve constraints env (DELETE_atleta id) s
  = ({| status_code := 204; body := NoContent |}, s).
Proof.
  intros (row & Hin & Hid).
  destruct (hits_of_some (filter_by_id id) s) as (i & r & rest & Hhits).
  { exists row. split; [done|]. by apply filter_by_id_true. }
  by eapply delete_found.
Qed.

(** Joao, in the small gym. *)
Lemma delete_stored_witness :
  serve unconstrained env_d (DELETE_atleta joao_id) gym_with_joao
  = ({| status_code := 204; body := NoContent |}, gym_with_joao).
Proof.
  apply (delete_stored unconstrained env_d joao_id gym_with_joao).
  apply some_row_with_id. vm_compute. reflexivity.
Defined.

(** X6. The four reading handlers (list and get by id, of athletes and of
    training centres) never change the store, whatever they answer. *)
Theorem reads_keep_store constraints env request s :
  match request with
  | GET_atletas _ _ | GET_atleta _ | GET_centros_treinamento _ _
  | GET_centro_treinamento _ => True
  | _ => False
  end →
  (serve constraints env request s).2 = s.
Proof.
  intros Hread. apply serve_keeps_store. by destruct request.
Qed.

(** Listing the athletes of the small gym. *)
Lemma reads_keep_store_witness :
  (serve unconstrained env_d (GET_atletas 50 0) gym_with_joao).2 = gym_with_joao.
Proof.
  apply (reads_keep_store unconstrained env_d (GET_atletas 50 0) gym_with_joao).
  exact I.
Defined.

(** X7. No request alters or removes a stored row: each table before the
    request is a prefix of the table after it, and one request adds at most
    one row in all. *)
Theorem store_only_grows constraints env request s :
  let s' := (serve constraints env request s).2 in
  categorias s `prefix_of` categorias s'
  ∧ centros_treinamento s `prefix_of` centros_treinamento s'
  ∧ atletas s `prefix_of` atletas s'
  ∧ (List.length (categorias s') + List.length (centros_treinamento s')
     + List.length (atletas s')
     ≤ S (List.length (categorias s) + List.length (centros_treinamento s)
          + List.length (atletas s)))%nat.
Proof.
  intros s'; subst s'.
  destruct (serve_cases constraints env request s) as [->|[_ Hcase]].
  { repeat split; try done. lia. }
  destruct Hcase as [(ain & cat & centro & _ & _ & _ & ->)
                    |[(id & n & ->)|(out & ->)]]; cbn [with_atleta with_categoria
      with_centro categorias centros_treinamento atletas];
    rewrite ?length_app; cbn [List.length];
    repeat split; try done; try (by apply prefix_app_r); lia.
Qed.

(** X8. The athlete [post] answers 400 exactly when the category name or
    the training-centre name of the request matches no stored row. *)
Theorem post_400_iff constraints env atleta_in s :
  status_code (serve constraints env (POST_atleta atleta_in) s).1 = 400
  ↔ (∀ c, c ∈ categorias s →
          categoria_nome c ≠ categoria_in_nome (categoria atleta_in))
    ∨ (∀ c, c ∈ centros_treinamento s →
            centro_nome c ≠ atleta_centro_nome (centro_treinamento atleta_in)).
Proof.
  destruct (first (List.filter (λ c, bool_decide (categoria_nome c
               = categoria_in_nome (categoria atleta_in))) (categorias s)))
    as [cat|] eqn:Hcat.
  2:{ split; [|intros _].
      - intros _. left. intros c Hc Hname.
        destruct (first_filter_some
                    (λ c, bool_decide (categoria_nome c
                                       = categoria_in_nome (categoria atleta_in)))
                    (categorias s)) as (c' & Hc' & _).
        { exists c. split; [done|]. by apply bool_decide_eq_true. }
        congruence.
      - unfold serve, atleta_post, mbind, M_bind, await, execute_categorias.
        cbn. by rewrite Hcat. }
  destruct (first (List.filter (λ c, bool_decide (centro_nome c
               = atleta_centro_nome (centro_treinamento atleta_in)))
              (centros_treinamento s))) as [centro|] eqn:Hcentro.
  2:{ split; [|intros _].
      - intros _. right. intros c Hc Hname.
        destruct (first_filter_some
                    (λ c, bool_decide (centro_nome c
                             = atleta_centro_nome (centro_treinamento atleta_in)))
                    (centros_treinamento s)) as (c' & Hc' & _).
        { exists c. split; [done|]. by apply bool_decide_eq_true. }
        congruence.
      - unfold serve, atleta_post, mbind, M_bind, await, execute_categorias,
          execute_centros_treinamento.
        cbn. rewrite Hcat; cbn. by rewrite Hcentro. }
  rewrite (post_found _ _ _ _ _ _ Hcat Hcentro).
  apply first_filter_elem in Hcat as [Hcat Hcn].
  apply first_filter_elem in Hcentro as [Hcentro Htn].
  apply bool_decide_eq_true in Hcn, Htn.
  split.
  - destruct (campos atleta_in !! "id"); [done|].
    destruct (campos atleta_in !! "create_at"); [done|].
    cbn. by destruct (constraints s _).
  - intros [Hno|Hno]; exfalso; eapply Hno; eauto.
Qed.

(** X9. An athlete [post] answered 201 has added exactly one row, to the
    athletes only. The row holds the generated [id] and [create_at], the
    primary keys of the first category and the first training centre (in
    table order) that carry the requested names, none of the two nested
    schemas, and every other field of the payload as it was sent. *)
Theorem post_stores_payload constraints env atleta_in s b s' :
  serve constraints env (POST_atleta atleta_in) s
    = ({| status_code := 201; body := b |}, s') →
  ∃ cat centro row,
    List.find (λ c, bool_decide (categoria_nome c
                 = categoria_in_nome (categoria atleta_in))) (categorias s) = Some cat
    ∧ List.find (λ c, bool_decide (centro_nome c
                   = atleta_centro_nome (centro_treinamento atleta_in)))
                (centros_treinamento s) = Some centro
    ∧ categorias s' = categorias s
    ∧ centros_treinamento s' = centros_treinamento s
    ∧ atletas s' = (atletas s ++ [row])%list
    ∧ row !! "id" = Some (VUuid (uuid4 env))
    ∧ row !! "create_at" = Some (VDatetime {| wall := clock env; tzinfo := None |})
    ∧ row !! "categoria_id" = Some (pk_value (categoria_pk_id cat))
    ∧ row !! "centro_treinamento_id" = Some (pk_value (centro_pk_id centro))
    ∧ row !! "categoria" = None
    ∧ row !! "centro_treinamento" = None
    ∧ ∀ k, k ≠ "id" → k ≠ "create_at" → k ≠ "categoria_id" →
           k ≠ "centro_treinamento_id" → k ≠ "categoria" →
           k ≠ "centro_treinamento" →
           row !! k = campos atleta_in !! k.
Proof.
  intros Hpost.
  apply created_inv in Hpost as (cat & centro & Hcat & Hcentro & _ & ->).
  exists cat, centro, (atleta_model_of (created_out env atleta_in) cat centro).
  rewrite first_filter_find in Hcat. rewrite first_filter_find in Hcentro.
  split; [done|]. split; [done|].
  unfold atleta_model_of, AtletaOut_model_dump_exclude, created_out,
    AtletaIn_model_dump.
  repeat split; try done.
  - by rewrite !lookup_insert_ne, !lookup_delete_ne, lookup_insert_eq.
  - by rewrite !lookup_insert_ne, !lookup_delete_ne, lookup_insert_ne,
      lookup_insert_eq.
  - by rewrite lookup_insert_ne, lookup_insert_eq.
  - by rewrite lookup_insert_eq.
  - by rewrite !lookup_insert_ne, lookup_delete_eq.
  - by rewrite !lookup_insert_ne, lookup_delete_ne, lookup_delete_eq.
  - intros k ? ? ? ? ? ?.
    by rewrite !lookup_insert_ne, !lookup_delete_ne, !lookup_insert_ne.
Qed.

(** Joao, as the small gym stores him. *)
Lemma post_stores_payload_witness :
  ∃ row : Dict,
    atletas gym_with_joao = [row]
    ∧ row !! "nome" = Some (VStr "Joao")
    ∧ row !! "categoria_id" = Some (VInt 1)
    ∧ row !! "categoria" = None.
Proof.
  destruct (post_stores_payload unconstrained env_c joao gym
              (AtletaBody (created_out env_c joao)) gym_with_joao)
    as (cat & centro & row & Hcat & _ & _ & _ & Hrows & _ & _ & Hfk & _ & Hrel & _ & Hk).
  - vm_compute. reflexivity.
  - exists row. split; [exact Hrows|]. split; [|split].
    + rewrite Hk by done. by vm_compute.
    + rewrite Hfk. vm_compute in Hcat. by injection Hcat as <-.
    + exact Hrel.
Defined.

(** X10. In every store reached from the empty one by serving requests,
    each training centre has a version 4 id, a [nome] of at most 20
    characters, an [endereco] of at most 60 and a [proprietario] of at most
    30: [post] stores nothing that [CentroTreinamentoOut] refuses. *)
Theorem reachable_centros_within_bounds constraints (history : list (Env * Request)) :
  Forall (λ c, is_uuid4 (centro_id c) = true
               ∧ (py_len (centro_nome c) ≤ 20)%nat
               ∧ (py_len (centro_endereco c) ≤ 60)%nat
               ∧ (py_len (centro_proprietario c) ≤ 30)%nat)
         (centros_treinamento (serve_all constraints history empty_store)).
Proof.
  eapply Forall_impl.
  { apply (serve_all_centros_valid constraints history empty_store). constructor. }
  intros c Hc. unfold centro_row_valid, CentroTreinamentoIn_valid in Hc. cbn in Hc.
  apply andb_true_iff in Hc as [Hid Hc].
  apply andb_true_iff in Hc as [Hc Hp].
  apply andb_true_iff in Hc as [Hn He].
  apply Nat.leb_le in Hn, He, Hp. done.
Qed.

(** X11. A training centre created (201) under an id no stored centre
    carries is answered by a following [GET] of that id, 200, with the very
    representation the creation returned. *)
Theorem centro_create_then_get constraints env env' cin s out s' :
  (∀ c, c ∈ centros_treinamento s → centro_id c ≠ uuid4 env) →
  serve constraints env (POST_centro_treinamento cin) s
    = ({| status_code := 201; body := CentroTreinamentoBody out |}, s') →
  out_id out = uuid4 env
  ∧ serve constraints env' (GET_centro_treinamento (uuid4 env)) s'
      = ({| status_code := 200; body := CentroTreinamentoBody out |}, s').
Proof.
  intros Hfresh Hpost. rewrite post_centro_run in Hpost.
  destruct (is_uuid4 (uuid4 env) && CentroTreinamentoIn_valid cin) eqn:Hok;
    [|discriminate].
  destruct (constraints s _); [|discriminate].
  injection Hpost as <- <-. split; [done|].
  unfold serve, centro_treinamento_get_by_id, mbind, M_bind, await,
    execute_centros_treinamento.
  cbn [db with_centro centros_treinamento].
  rewrite List.filter_app, find_none_filter.
  2:{ intros c Hc. apply bool_decide_eq_false. by apply Hfresh. }
  cbn [List.filter app centro_id]. rewrite bool_decide_true by done.
  cbn [first head]. unfold respond, mret, M_ret, centro_response_model.
  rewrite centro_validate_ok by by apply centro_out_row_valid.
  done.
Qed.

(** CT King, created after the category and read back. *)
Lemma centro_create_then_get_witness :
  (serve unconstrained env_d (GET_centro_treinamento (uuid4 env_b)) gym).1
  = {| status_code := 200;
       body := CentroTreinamentoBody
                 {| out_id := uuid4 env_b; out_nome := "CT King";
                    out_endereco := "Rua X, Q02"; out_proprietario := "Marcos" |} |}.
Proof.
  destruct (centro_create_then_get unconstrained env_b env_d ct_king
              (serve unconstrained env_a (POST_categoria scale) empty_store).2
              (centro_out env_b ct_king) gym) as [_ Hget].
  - intros c Hc. vm_compute in Hc. by apply elem_of_nil in Hc.
  - vm_compute. reflexivity.
  - by rewrite Hget.
Defined.

(** X12. In a store reached by serving requests, [GET] of an id that a
    stored training centre carries answers 200 with the fields of the first
    such row in table order. *)
Theorem centro_get_stored constraints (history : list (Env * Request)) env (id : UUID) :
  let s := serve_all constraints history empty_store in
  (∃ c, c ∈ centros_treinamento s ∧ centro_id c = id) →
  ∃ c,
    List.find (λ c, bool_decide (centro_id c = id)) (centros_treinamento s) = Some c
    ∧ serve constraints env (GET_centro_treinamento id) s
        = ({| status_code := 200; body := CentroTreinamentoBody
                {| out_id := id; out_nome := centro_nome c;
                   out_endereco := centro_endereco c;
                   out_proprietario := centro_proprietario c |} |}, s).
Proof.
  intros s (c0 & Hin & Hid).
  destruct (first_filter_some (λ c, bool_decide (centro_id c = id))
              (centros_treinamento s)) as (c & Hfirst & Hc & Hcid).
  { exists c0. split; [done|]. by apply bool_decide_eq_true. }
  apply bool_decide_eq_true in Hcid.
  exists c. split; [by rewrite <- first_filter_find|].
  assert (centro_row_valid c = true) as Hvalid.
  { assert (Forall (λ c, centro_row_valid c = true) (centros_treinamento s)) as Hall
      by (apply serve_all_centros_valid; constructor).
    rewrite Forall_forall in Hall. by apply Hall. }
  unfold serve, centro_treinamento_get_by_id, mbind, M_bind, await,
    execute_centros_treinamento.
  cbn [db]. fold s. rewrite Hfirst.
  unfold respond, mret, M_ret, centro_response_model.
  rewrite centro_validate_ok by done. unfold centro_representation.
  by rewrite Hcid.
Qed.

(** CT King, in the small gym. *)
Lemma centro_get_stored_witness :
  ∃ c,
    centros_treinamento gym_with_joao = [c]
    ∧ (serve unconstrained env_d (GET_centro_treinamento (uuid4 env_b))
         gym_with_joao).1
      = {| status_code := 200;
           body := CentroTreinamentoBody
                     {| out_id := uuid4 env_b; out_nome := "CT King";
                        out_endereco := "Rua X, Q02";
                        out_proprietario := "Marcos" |} |}.
Proof.
  destruct (centro_get_stored unconstrained (opening ++ [(env_c, POST_atleta joao)])
              env_d (uuid4 env_b)) as (c & Hfind & Hget).
  - eexists. split; [vm_compute; left|]. reflexivity.
  - vm_compute in Hfind. injection Hfind as <-.
    eexists. split; [by vm_compute|]. fold gym_with_joao in Hget.
    rewrite Hget. reflexivity.
Defined.

(** X13. In a store reached by serving requests, the list of training
    centres answers 200 with the total number of rows and, as items, the
    rows of the requested window in table order; their number is
    [min limit (total - offset)]. *)
Theorem centro_list constraints (history : list (Env * Request)) env (limit offset : nat) :
  let s := serve_all constraints history empty_store in
  let all := centro_representation <$> centros_treinamento s in
  serve constraints env (GET_centros_treinamento limit offset) s
    = ({| status_code := 200;
          body := CentroTreinamentoPageBody
                    {| items := take limit (drop offset all);
                       total := List.length (centros_treinamento s);
                       page_limit := limit; page_offset := offset |} |}, s)
  ∧ List.length (take limit (drop offset all))
    = (limit `min` (List.length (centros_treinamento s) - offset))%nat.
Proof.
  intros s all. split.
  - unfold serve, centro_treinamento_get_all, mbind, M_bind, await,
      execute_centros_treinamento.
    cbn [db]. fold s.
    rewrite (filter_all (centros_treinamento s)).
    unfold respond, mret, M_ret, centro_page_response_model, paginate.
    cbn [items total page_limit page_offset].
    rewrite (validate_all_ok _ centro_representation).
    + unfold all. by rewrite fmap_take, fmap_drop.
    + apply Forall_take, Forall_drop.
      eapply Forall_impl;
        [apply (serve_all_centros_valid constraints history empty_store); constructor|].
      intros c Hc. by apply centro_validate_ok.
  - unfold all. by rewrite length_take, length_drop, length_fmap.
Qed.

(** X14. In a store reached by serving requests, [GET] of an id that a
    stored athlete carries answers 200 with the first such row: its own
    fields without the two foreign-key columns, and the names of the
    category and of the training centre those keys refer to. *)
Theorem atleta_get_stored constraints (history : list (Env * Request)) env (id : UUID) :
  let s := serve_all constraints history empty_store in
  (∃ row : Dict, row ∈ atletas s ∧ row !! "id" = Some (VUuid id)) →
  ∃ (row : Dict) cat centro,
    List.find (filter_by_id id) (atletas s) = Some row
    ∧ cat ∈ categorias s
    ∧ row !! "categoria_id" = Some (pk_value (categoria_pk_id cat))
    ∧ centro ∈ centros_treinamento s
    ∧ row !! "centro_treinamento_id" = Some (pk_value (centro_pk_id centro))
    ∧ serve constraints env (GET_atleta id) s
      = ({| status_code := 200;
            body := AtletaBody
              (<["centro_treinamento" := VDict {["nome" := VStr (centro_nome centro)]}]>
                 (<["categoria" := VDict {["nome" := VStr (categoria_nome cat)]}]>
                    (delete "categoria_id"
                       (delete "centro_treinamento_id" row)))) |}, s).
Proof.
  intros s (row0 & Hin & Hid).
  assert (store_ok s) as Hok by apply serve_all_store_ok, empty_store_ok.
  destruct (hits_of_some (filter_by_id id) s) as (i & row & rest & Hhits).
  { exists row0. split; [done|]. by apply filter_by_id_true. }
  assert (row ∈ atletas s) as Hrow.
  { destruct (hits_of_lookup (filter_by_id id) s i row) as [Hi _].
    - rewrite Hhits. left.
    - by eapply list_elem_of_lookup_2. }
  destruct (load_ok s row Hok Hrow) as (cat & centro & Hcat & Hcentro & Hc & Ht & Hload).
  exists row, cat, centro.
  split; [by eapply hits_of_find|]. repeat (split; [done|]).
  rewrite (get_found constraints env id s i row rest Hhits).
  rewrite (validate_load_ok s row Hok Hrow). unfold representation.
  rewrite Hload. by rewrite !delete_insert_ne.
Qed.

(** Joao, in the small gym. *)
Lemma atleta_get_stored_witness :
  ∃ (row : Dict) cat centro,
    List.find (filter_by_id joao_id) (atletas gym_with_joao) = Some row
    ∧ cat ∈ categorias gym_with_joao
    ∧ row !! "categoria_id" = Some (pk_value (categoria_pk_id cat))
    ∧ centro ∈ centros_treinamento gym_with_joao
    ∧ row !! "centro_treinamento_id" = Some (pk_value (centro_pk_id centro))
    ∧ serve unconstrained env_d (GET_atleta joao_id) gym_with_joao
      = ({| status_code := 200;
            body := AtletaBody
              (<["centro_treinamento" := VDict {["nome" := VStr (centro_nome centro)]}]>
                 (<["categoria" := VDict {["nome" := VStr (categoria_nome cat)]}]>
                    (delete "categoria_id"
                       (delete "centro_treinamento_id" row)))) |}, gym_with_joao).
Proof.
  apply (atleta_get_stored unconstrained (opening ++ [(env_c, POST_atleta joao)])
           env_d joao_id).
  apply some_row_with_id. vm_compute. reflexivity.
Defined.

(** X15. In a store reached by serving requests, the list of athletes
    answers 200 with the total number of rows and, as items, the
    representations of the rows of the requested window in table order;
    their number is [min limit (total - offset)]. *)
Theorem atleta_list constraints (history : list (Env * Request)) env (limit offset : nat) :
  let s := serve_all constraints history empty_store in
  let all := representation s <$> atletas s in
  serve constraints env (GET_atletas limit offset) s
    = ({| status_code := 200;
          body := AtletaPageBody
                    {| items := take limit (drop offset all);
                       total := List.length (atletas s);
                       page_limit := limit; page_offset := offset |} |}, s)
  ∧ List.length (take limit (drop offset all))
    = (limit `min` (List.length (atletas s) - offset))%nat.
Proof.
  intros s all. split.
  - apply atleta_list_run, serve_all_store_ok, empty_store_ok.
  - unfold all. by rewrite length_take, length_drop, length_fmap.
Qed.

(** X16. After an athlete is created (201) in a store reached by serving
    requests, from a payload that keeps to its own fields, the page of one
    item that starts after the athletes stored before holds exactly the
    representation the creation returned, and the total has grown by
    one. *)
Theorem create_then_list constraints (history : list (Env * Request)) env env'
    atleta_in out s' :
  let s := serve_all constraints history empty_store in
  campos atleta_in !! "categoria_id" = None →
  campos atleta_in !! "centro_treinamento_id" = None →
  serve constraints env (POST_atleta atleta_in) s
    = ({| status_code := 201; body := AtletaBody out |}, s') →
  serve constraints env' (GET_atletas 1 (List.length (atletas s))) s'
  = ({| status_code := 200;
        body := AtletaPageBody
                  {| items := [out]; total := S (List.length (atletas s));
                     page_limit := 1; page_offset := List.length (atletas s) |} |}, s').
Proof.
  intros s Hc Ht Hpost.
  assert (store_ok s) as Hok by apply serve_all_store_ok, empty_store_ok.
  assert (store_ok s') as Hok'.
  { replace s' with (serve constraints env (POST_atleta atleta_in) s).2
      by by rewrite Hpost.
    by apply serve_store_ok. }
  apply created_inv in Hpost as (cat & centro & Hcat & Hcentro & [= ->] & ->).
  apply first_filter_elem in Hcat as [Hcat Hcn].
  apply first_filter_elem in Hcentro as [Hcentro Htn].
  apply bool_decide_eq_true in Hcn, Htn.
  rewrite atleta_list_run by done.
  cbn [with_atleta atletas]. rewrite fmap_app, length_app. cbn [List.length].
  set (s' := with_atleta s (atleta_model_of (created_out env atleta_in) cat centro)).
  rewrite <- (length_fmap (representation s') (atletas s)) at 1.
  rewrite drop_app_length. cbn [fmap list_fmap take]. subst s'.
  unfold representation at 1. rewrite load_created by done.
  rewrite created_round_trip by done.
  do 4 f_equal. lia.
Qed.

(** Lia is created in the small gym and listed after Joao. *)
Lemma create_then_list_witness :
  ∃ created : Dict,
    created !! "nome" = Some (VStr "Lia")
    ∧ (serve unconstrained env_a (GET_atletas 1 1)
         (serve unconstrained env_d (POST_atleta livia) gym_with_joao).2).1
      = {| status_code := 200;
           body := AtletaPageBody {| items := [created]; total := 2;
                                     page_limit := 1; page_offset := 1 |} |}.
Proof.
  exists (created_out env_d livia). split; [by vm_compute|].
  pose proof (create_then_list unconstrained (opening ++ [(env_c, POST_atleta joao)])
                env_d env_a livia (created_out env_d livia)
                (serve unconstrained env_d (POST_atleta livia) gym_with_joao).2)
    as Hlist.
  cbv zeta in Hlist. specialize (Hlist eq_refl eq_refl).
  assert (serve unconstrained env_d (POST_atleta livia) gym_with_joao
          = ({| status_code := 201; body := AtletaBody (created_out env_d livia) |},
             (serve unconstrained env_d (POST_atleta livia) gym_with_joao).2))
    as Hpost by (vm_compute; reflexivity).
  specialize (Hlist Hpost). exact (f_equal fst Hlist).
Defined.

(** X17. The two schemas agree on the bound of [nome]: in every store
    reached by serving requests, the name of each training centre is one
    that [CentroTreinamentoAtleta], the schema an athlete request names its
    centre with, accepts. *)
Theorem stored_centro_nameable constraints (history : list (Env * Request)) :
  Forall (λ c, CentroTreinamentoAtleta_valid {| atleta_centro_nome := centro_nome c |}
               = true)
         (centros_treinamento (serve_all constraints history empty_store)).
Proof.
  eapply Forall_impl.
  { apply (serve_all_centros_valid constraints history empty_store). constructor. }
  intros c Hc. unfold centro_row_valid, CentroTreinamentoIn_valid in Hc. cbn in Hc.
  unfold CentroTreinamentoAtleta_valid. cbn.
  apply andb_true_iff in Hc as [_ Hc].
  apply andb_true_iff in Hc as [Hc _].
  by apply andb_true_iff in Hc as [Hn _].
Qed.

